(** * Specwright: runtime contracts, error dispatch and state machines

    A shallow embedding of [specwright/validation.py],
    [specwright/decorators.py], [specwright/state_machine.py],
    [specwright/testing.py] and [specwright/pytest_plugin.py], with the
    properties of the engines proved over it.

    Python functions that can raise return an [outcome]; code that writes to
    the logging module or to instance attributes threads an explicit world. *)

From Stdlib Require Import Ascii.
From stdpp Require Import base option list strings pretty gmap sorting.

Set Warnings "-register-all".

(** ** Python prelude: values, exceptions, calls *)

Module Py.

(** Runtime values.  A float is kept by its IEEE bit pattern; an object by
    its class name and attribute list. *)
Inductive pyval :=
| VNone
| VBool (b : bool)
| VInt (z : Z)
| VFloat (bits : Z)
| VStr (s : string)
| VList (items : list pyval)
| VTuple (items : list pyval)
| VDict (items : list (pyval * pyval))
| VObject (cls : string) (fields : list (string * pyval)).

(** [type(value).__name__] *)
Definition type_name (v : pyval) : string :=
  match v with
  | VNone => "NoneType"
  | VBool _ => "bool"
  | VInt _ => "int"
  | VFloat _ => "float"
  | VStr _ => "str"
  | VList _ => "list"
  | VTuple _ => "tuple"
  | VDict _ => "dict"
  | VObject cls _ => cls
  end.

(** A class object.  Two class objects are the same class when they are the
    same object, whatever their names: [type_id] is the identity of the
    object (its address), and [mro] lists the identities of the classes of
    its [__mro__], the class itself first. *)
Record pytype := PyType {
  type_id : positive;
  type___name__ : string;
  mro : list positive
}.

(** [class name(base): ...], the new class object living at [id]. *)
Definition subclass (id : positive) (name : string) (base : pytype) : pytype :=
  PyType id name (id :: mro base).

(** Builtin exception classes and the classes of [specwright/exceptions.py]. *)
Definition object : pytype := PyType 1 "object" [1%positive].
Definition BaseException : pytype := subclass 2 "BaseException" object.
Definition Exception : pytype := subclass 3 "Exception" BaseException.
Definition TypeError : pytype := subclass 4 "TypeError" Exception.
Definition ValueError : pytype := subclass 5 "ValueError" Exception.
Definition RuntimeError : pytype := subclass 6 "RuntimeError" Exception.
Definition AttributeError : pytype := subclass 7 "AttributeError" Exception.
Definition OSError : pytype := subclass 8 "OSError" Exception.
Definition ConnectionError : pytype := subclass 9 "ConnectionError" OSError.
Definition Warning : pytype := subclass 10 "Warning" Exception.
Definition UserWarning : pytype := subclass 11 "UserWarning" Warning.
Definition SpecwrightError : pytype := subclass 20 "SpecwrightError" Exception.
Definition SpecError : pytype := subclass 21 "SpecError" SpecwrightError.
Definition InputValidationError : pytype :=
  subclass 22 "InputValidationError" SpecError.
Definition OutputValidationError : pytype :=
  subclass 23 "OutputValidationError" SpecError.
Definition MissingDocstringError : pytype :=
  subclass 24 "MissingDocstringError" SpecError.
Definition MissingTypeHintError : pytype :=
  subclass 25 "MissingTypeHintError" SpecError.
Definition HandlingStrategyError : pytype :=
  subclass 26 "HandlingStrategyError" SpecwrightError.
Definition InvalidTransitionError : pytype :=
  subclass 27 "InvalidTransitionError" SpecwrightError.
Definition InvalidStateError : pytype :=
  subclass 28 "InvalidStateError" SpecwrightError.
Definition MissingTestsError : pytype :=
  subclass 29 "MissingTestsError" SpecwrightError.

(** An exception instance: its class, [str(e)], the frames of its traceback
    and the exception it was raised [from] ([__cause__]). *)
Inductive exn :=
| Exn (exc_type : pytype) (exc_str : string) (exc_traceback : list string)
      (exc_cause : option exn).

Definition exc_type (e : exn) : pytype := let 'Exn t _ _ _ := e in t.
Definition exc_str (e : exn) : string := let 'Exn _ s _ _ := e in s.
Definition exc_traceback (e : exn) : list string := let 'Exn _ _ tb _ := e in tb.
Definition exc_cause (e : exn) : option exn := let 'Exn _ _ _ c := e in c.

(** [raise T(msg)] and [raise T(msg) from cause] *)
Definition new_exn (t : pytype) (msg : string) : exn := Exn t msg [] None.
Definition new_exn_from (t : pytype) (msg : string) (cause : exn) : exn :=
  Exn t msg [] (Some cause).

(** [isinstance(e, t)]: the class object [t] is one of the classes in the
    MRO of [type(e)]. *)
Definition isinstance (e : exn) (t : pytype) : bool :=
  bool_decide (type_id t ∈ mro (exc_type e)).

(** [issubclass(t, BaseException)] *)
Definition issubclass_BaseException (t : pytype) : bool :=
  bool_decide (type_id BaseException ∈ mro t).

Inductive outcome (A : Type) :=
| Return (v : A)
| Raise (e : exn).
Arguments Return {A} v.
Arguments Raise {A} e.

(** One call of the logging API: logger name, level, format string, its
    two arguments and the exception passed as [exc_info]. *)
Record log_record := LogRecord {
  lr_logger : string;
  lr_level : string;
  lr_msg : string;
  lr_args : string * exn;
  lr_exc_info : option exn
}.

(** What a call can observe and change besides its result: the diagnostics
    sink and the program's other mutable state. *)
Record world := World {
  sink : list log_record;
  globals : gmap string pyval
}.

Definition emit (r : log_record) (w : world) : world :=
  World (sink w ++ [r]) (globals w).

(** [inspect.Parameter] *)
Inductive param_kind :=
| POSITIONAL_ONLY | POSITIONAL_OR_KEYWORD | VAR_POSITIONAL | KEYWORD_ONLY
| VAR_KEYWORD.

Global Instance param_kind_eq_dec : EqDecision param_kind.
Proof. solve_decision. Defined.

Record parameter := mk_parameter {
  p_name : string;
  p_kind : param_kind;
  p_default : option pyval
}.

Abbreviation arguments := (list (string * pyval)).

Definition has_key {A} (k : string) (d : list (string * A)) : bool :=
  bool_decide (k ∈ d.*1).

Fixpoint dict_get {A} (k : string) (d : list (string * A)) : option A :=
  match d with
  | [] => None
  | (k', v) :: d => if decide (k = k') then Some v else dict_get k d
  end.

Fixpoint dict_del {A} (k : string) (d : list (string * A)) : list (string * A) :=
  match d with
  | [] => []
  | (k', v) :: d => if decide (k = k') then d else (k', v) :: dict_del k d
  end.

(** [inspect.Signature.bind], first loop: positional arguments are paired
    with the leading parameters.  The result is the arguments bound so far
    and the parameters left for the keyword loop. *)
Fixpoint bind_positional (params : list parameter) (args : list pyval)
    (kwargs : arguments) (bound : arguments)
    : string + (arguments * list parameter) :=
  match args with
  | [] =>
      match params with
      | [] => inr (bound, [])
      | param :: rest =>
          if decide (p_kind param = VAR_POSITIONAL) then inr (bound, rest)
          else if has_key (p_name param) kwargs then
            if decide (p_kind param = POSITIONAL_ONLY) then
              inl ("'" +:+ p_name param +:+
                   "' parameter is positional only, but was passed as a keyword")
            else inr (bound, param :: rest)
          else if bool_decide (p_kind param = VAR_KEYWORD)
                  || bool_decide (is_Some (p_default param)) then
            inr (bound, param :: rest)
          else
            inl ("missing a required" +:+
                 (if decide (p_kind param = KEYWORD_ONLY)
                  then " keyword-only" else "") +:+
                 " argument: '" +:+ p_name param +:+ "'")
      end
  | arg_val :: args' =>
      match params with
      | [] => inl "too many positional arguments"
      | param :: rest =>
          if bool_decide (p_kind param = VAR_KEYWORD)
             || bool_decide (p_kind param = KEYWORD_ONLY) then
            inl "too many positional arguments"
          else if decide (p_kind param = VAR_POSITIONAL) then
            inr (bound ++ [(p_name param, VTuple (arg_val :: args'))], rest)
          else if has_key (p_name param) kwargs
                  && negb (bool_decide (p_kind param = POSITIONAL_ONLY)) then
            inl ("multiple values for argument '" +:+ p_name param +:+ "'")
          else
            bind_positional rest args' kwargs
              (bound ++ [(p_name param, arg_val)])
      end
  end.

(** Second loop: the remaining parameters take their values from [kwargs];
    what is left of [kwargs] goes to the [**kwargs] parameter, if any. *)
Fixpoint bind_keywords (params : list parameter) (kwargs : arguments)
    (kwargs_param : option string) (bound : arguments)
    : string + arguments :=
  match params with
  | [] =>
      match kwargs with
      | [] => inr bound
      | (k, _) :: _ =>
          match kwargs_param with
          | Some name =>
              inr (bound ++ [(name, VDict (prod_map VStr id <$> kwargs))])
          | None => inl ("got an unexpected keyword argument '" +:+ k +:+ "'")
          end
      end
  | param :: rest =>
      if decide (p_kind param = VAR_KEYWORD) then
        bind_keywords rest kwargs (Some (p_name param)) bound
      else if decide (p_kind param = VAR_POSITIONAL) then
        bind_keywords rest kwargs kwargs_param bound
      else
        match dict_get (p_name param) kwargs with
        | None =>
            if bool_decide (p_default param = None :> option pyval) then
              inl ("missing a required argument: '" +:+ p_name param +:+ "'")
            else bind_keywords rest kwargs kwargs_param bound
        | Some arg_val =>
            if decide (p_kind param = POSITIONAL_ONLY) then
              inl ("'" +:+ p_name param +:+
                   "' parameter is positional only, but was passed as a keyword")
            else
              bind_keywords rest (dict_del (p_name param) kwargs) kwargs_param
                (bound ++ [(p_name param, arg_val)])
        end
  end.

(** [sig.bind] on the call's positional and keyword arguments: the [TypeError] message or the bound
    arguments. *)
Definition signature_bind (sig : list parameter) (args : list pyval)
    (kwargs : arguments) : string + arguments :=
  match bind_positional sig args kwargs [] with
  | inl msg => inl msg
  | inr (bound, rest) => bind_keywords rest kwargs None bound
  end.

(** [bound.apply_defaults()]: arguments listed in signature order, a missing
    one taking its default, [()] for [*args] and [{}] for [**kwargs]. *)
Fixpoint apply_defaults (sig : list parameter) (bound : arguments) : arguments :=
  match sig with
  | [] => []
  | param :: rest =>
      match dict_get (p_name param) bound with
      | Some v => (p_name param, v) :: apply_defaults rest bound
      | None =>
          match p_default param with
          | Some val => (p_name param, val) :: apply_defaults rest bound
          | None =>
              if decide (p_kind param = VAR_POSITIONAL) then
                (p_name param, VTuple []) :: apply_defaults rest bound
              else if decide (p_kind param = VAR_KEYWORD) then
                (p_name param, VDict []) :: apply_defaults rest bound
              else apply_defaults rest bound
          end
      end
  end.

(** Computations that read and change a world [W] and may raise. *)
Definition exec (W A : Type) : Type := W → outcome A * W.

Definition pure {W A} (v : A) : exec W A := λ w, (Return v, w).
Definition throw {W A} (e : exn) : exec W A := λ w, (Raise e, w).
Definition lift {W A} (o : outcome A) : exec W A := λ w, (o, w).
Definition bind {W A B} (m : exec W A) (k : A → exec W B) : exec W B :=
  λ w, match m w with
       | (Return v, w') => k v w'
       | (Raise e, w') => (Raise e, w')
       end.

(** [try: m  except catchable as e: handler(e)] *)
Definition try_except {W A} (m : exec W A) (catchable : exn → bool)
    (handler : exn → exec W A) : exec W A :=
  λ w, match m w with
       | (Return v, w') => (Return v, w')
       | (Raise e, w') => if catchable e then handler e w' else (Raise e, w')
       end.

End Py.

Notation "'let!' x ':=' m 'in' k" := (Py.bind m (λ x, k))
  (at level 10, x name, m at level 200, k at level 200,
   format "'[v' 'let!'  x  :=  m  'in' '/' k ']'").

(** ** specwright/validation.py *)

Module Validation.
Import Py.

(** Declared types, as [typing.get_type_hints] resolves them. *)
Inductive prim_kind := KInt | KBool | KStr | KFloat | KNone.

Inductive TypeDescriptor :=
| Primitive (kind : prim_kind)
| Optional (inner : TypeDescriptor)
| Sequence (elementType : TypeDescriptor)
| Mapping (keyType valueType : TypeDescriptor)
| RecordOf (cls : string) (fieldDescriptors : list (string * TypeDescriptor))
| Union (alternatives : list TypeDescriptor).

(** Modelled from the spec: pydantic's [TypeAdapter(hint).validate_python(value,
    strict=True)], a dependency that is not among the repository's files.
    Strict structural validation: no coercion between related primitive
    types, and a boolean is never an integer.  [true] means the value is
    accepted; [false] stands for [PydanticValidationError].  An integer is
    accepted where a float is declared, as tests/test_decorators.py
    (test_float_accepts_int) pins down. *)
Fixpoint validate_python (t : TypeDescriptor) (value : pyval) {struct t} : bool :=
  match t with
  | Primitive KInt => match value with VInt _ => true | _ => false end
  | Primitive KBool => match value with VBool _ => true | _ => false end
  | Primitive KStr => match value with VStr _ => true | _ => false end
  | Primitive KFloat =>
      match value with VFloat _ | VInt _ => true | _ => false end
  | Primitive KNone => match value with VNone => true | _ => false end
  | Optional inner =>
      match value with VNone => true | _ => validate_python inner value end
  | Sequence elementType =>
      match value with
      | VList items => forallb (validate_python elementType) items
      | _ => false
      end
  | Mapping keyType valueType =>
      match value with
      | VDict items =>
          forallb (λ kv, validate_python keyType kv.1
                         && validate_python valueType kv.2) items
      | _ => false
      end
  | RecordOf cls fieldDescriptors =>
      match value with
      | VObject c fields =>
          bool_decide (c = cls)
          && forallb (λ fd, match dict_get fd.1 fields with
                            | Some x => validate_python fd.2 x
                            | None => false
                            end) fieldDescriptors
      | _ => false
      end
  | Union alternatives =>
      existsb (λ alt, validate_python alt value) alternatives
  end.

(** A callable as the decorators see it: the attributes [functools.wraps]
    copies, what [inspect.signature] and [typing.get_type_hints] return for
    it, and what calling it does. *)
Record pyfunc := PyFunc {
  __name__ : string;
  __qualname__ : string;
  __module__ : option string;
  __doc__ : option string;
  signature : list parameter;
  get_type_hints : gmap string TypeDescriptor;
  call : list pyval → arguments → exec world pyval
}.

(** A function written with [def]: a call that cannot be bound to the
    parameter list raises [TypeError] before the body runs (the interpreter
    words the message in its own way; the text of [signature_bind] stands
    for it here). *)
Definition def (name qualname : string) (module doc : option string)
    (params : list parameter) (annotations : gmap string TypeDescriptor)
    (body : arguments → exec world pyval) : pyfunc :=
  PyFunc name qualname module doc params annotations
    (λ args kwargs w,
       match signature_bind params args kwargs with
       | inl msg => (Raise (new_exn TypeError msg), w)
       | inr bound => body (apply_defaults params bound) w
       end).

Definition _SKIP_PARAMS : list string := ["self"; "cls"].

Definition newline : string := String "010"%char "".

(** The characters [str.strip] removes, those [str.isspace] holds for:
    U+0009 to U+000D, U+001C to U+0020, U+0085, U+00A0, U+1680, U+2000 to
    U+200A, U+2028, U+2029, U+202F, U+205F and U+3000.  A Python [str] is
    kept as its UTF-8 encoding, so a character takes one, two or three
    bytes here. *)
Definition space_1 (a : ascii) : bool :=
  let a := N_of_ascii a in
  ((9 <=? a) && (a <=? 13) || (28 <=? a) && (a <=? 32))%N.

Definition space_2 (a b : ascii) : bool :=
  let a := N_of_ascii a in
  let b := N_of_ascii b in
  ((a =? 194) && ((b =? 133) || (b =? 160)))%N.

Definition space_3 (a b c : ascii) : bool :=
  let a := N_of_ascii a in
  let b := N_of_ascii b in
  let c := N_of_ascii c in
  ((a =? 225) && (b =? 154) && (c =? 128)
   || (a =? 226) && (b =? 128)
      && ((128 <=? c) && (c <=? 138) || (c =? 168) || (c =? 169) || (c =? 175))
   || (a =? 226) && (b =? 129) && (c =? 159)
   || (a =? 227) && (b =? 128) && (c =? 128))%N.

(** [not s.strip()]: the string holds white space only. *)
Fixpoint is_blank (s : string) : bool :=
  match s with
  | "" => true
  | String a s1 =>
      if space_1 a then is_blank s1
      else
        match s1 with
        | "" => false
        | String b s2 =>
            if space_2 a b then is_blank s2
            else
              match s2 with
              | "" => false
              | String c s3 => space_3 a b c && is_blank s3
              end
        end
  end.

Definition validate_docstring (func : pyfunc) : outcome () :=
  let absent :=
    match __doc__ func with
    | None => true
    | Some doc => is_blank doc
    end in
  if absent then
    Raise (new_exn MissingDocstringError
      ("Function '" +:+ __qualname__ func +:+ "' is missing a docstring. " +:+
       "All @spec-decorated functions must have a docstring " +:+
       "describing their behavior."))
  else Return ().

Fixpoint missing_hints (hints : gmap string TypeDescriptor)
    (params : list parameter) (missing : list string) : list string :=
  match params with
  | [] => missing
  | param :: params =>
      if bool_decide (p_name param ∈ _SKIP_PARAMS) then
        missing_hints hints params missing
      else if bool_decide (p_kind param = VAR_POSITIONAL)
              || bool_decide (p_kind param = VAR_KEYWORD) then
        missing_hints hints params missing
      else if bool_decide (hints !! p_name param = None) then
        missing_hints hints params (missing ++ [p_name param])
      else missing_hints hints params missing
  end.

Definition validate_type_hints (func : pyfunc)
    : outcome (gmap string TypeDescriptor) :=
  let hints := get_type_hints func in
  let missing := missing_hints hints (signature func) [] in
  let missing :=
    if bool_decide (hints !! "return" = None) then missing ++ ["return"]
    else missing in
  match missing with
  | [] => Return hints
  | _ =>
      Raise (new_exn MissingTypeHintError
        ("Function '" +:+ __qualname__ func +:+ "' is missing type hints for: " +:+
         String.concat ", " missing +:+ ". " +:+
         "All @spec-decorated functions must have complete type annotations."))
  end.

Section rendering.
(** Python's [repr] of a value and [str] of a type hint, which the error
    messages interpolate. *)
Context (py_repr : pyval → string) (hint_str : TypeDescriptor → string).

Definition input_error_line (name : string) (hint : TypeDescriptor)
    (value : pyval) : string :=
  "  - Parameter '" +:+ name +:+ "': expected " +:+ hint_str hint +:+
  ", got " +:+ type_name value +:+ " (" +:+ py_repr value +:+ ")".

(** The loop of [validate_inputs] over [bound.arguments.items()]. *)
Fixpoint collect_errors (hints : gmap string TypeDescriptor)
    (items : arguments) (errors : list string) : list string :=
  match items with
  | [] => errors
  | (name, value) :: items =>
      if bool_decide (name ∈ _SKIP_PARAMS) then
        collect_errors hints items errors
      else
        match hints !! name with
        | None => collect_errors hints items errors
        | Some hint =>
            if validate_python hint value then
              collect_errors hints items errors
            else
              collect_errors hints items
                (errors ++ [input_error_line name hint value])
        end
  end.

Definition validate_inputs (func : pyfunc)
    (hints : gmap string TypeDescriptor) (args : list pyval)
    (kwargs : arguments) : outcome () :=
  match signature_bind (signature func) args kwargs with
  | inl e =>
      Raise (new_exn_from InputValidationError
        ("Argument binding failed for '" +:+ __qualname__ func +:+ "': " +:+ e)
        (new_exn TypeError e))
  | inr bound =>
      match collect_errors hints (apply_defaults (signature func) bound) [] with
      | [] => Return ()
      | errors =>
          Raise (new_exn InputValidationError
            ("Input validation failed for '" +:+ __qualname__ func +:+ "':" +:+
             newline +:+ String.concat newline errors))
      end
  end.

Definition validate_output (func : pyfunc)
    (hints : gmap string TypeDescriptor) (result : pyval) : outcome () :=
  match hints !! "return" with
  | None => Return ()
  | Some return_type =>
      if validate_python return_type result then Return ()
      else
        Raise (new_exn OutputValidationError
          ("Output validation failed for '" +:+ __qualname__ func +:+ "': " +:+
           "expected " +:+ hint_str return_type +:+ ", got " +:+
           type_name result +:+ " (" +:+ py_repr result +:+ ")"))
  end.

End rendering.

End Validation.

(** ** specwright/decorators.py *)

Module Decorators.
Import Py Validation.

Section rendering.
Context (py_repr : pyval → string) (hint_str : TypeDescriptor → string).

Definition check_inputs := validate_inputs py_repr hint_str.
Definition check_output := validate_output py_repr hint_str.

(** The [wrapper] closure of [spec]. *)
Definition spec_wrapper (validate_inputs validate_output : bool) (fn : pyfunc)
    (hints : gmap string TypeDescriptor) (args : list pyval)
    (kwargs : arguments) : exec world pyval :=
  let! _ := (if validate_inputs
             then lift (check_inputs fn hints args kwargs)
             else pure ()) in
  let! result := call fn args kwargs in
  let! _ := (if validate_output
             then lift (check_output fn hints result)
             else pure ()) in
  pure result.

(** [spec(validate_inputs=..., validate_output=..., require_docstring=...)(fn)]:
    the decoration-time checks, then the wrapper carrying the attributes of
    [fn] as [functools.wraps] copies them.  The [__spec__] metadata attached
    to the wrapper plays no part in a call and is not kept. *)
Definition spec (validate_inputs validate_output require_docstring : bool)
    (fn : pyfunc) : outcome pyfunc :=
  match (if require_docstring then validate_docstring fn else Return ()) with
  | Raise e => Raise e
  | Return _ =>
      match validate_type_hints fn with
      | Raise e => Raise e
      | Return hints =>
          Return (PyFunc (__name__ fn) (__qualname__ fn) (__module__ fn)
                    (__doc__ fn) (signature fn) (get_type_hints fn)
                    (spec_wrapper validate_inputs validate_output fn hints))
      end
  end.

End rendering.

(** A handling strategy: a callable taking the exception, or any other
    value (the strings "ignore" and "log" among them). *)
Inductive strategy :=
| SValue (v : pyval)
| SCallable (f : exn → exec world pyval).

(** A key of the handlers dict: a class, or some other object. *)
Inductive handler_key :=
| KType (t : pytype)
| KOther (v : pyval).

(** The handlers dict, in insertion order. *)
Abbreviation HandlerMap := (list (handler_key * strategy)).

(** What [_apply_strategy] returns: a value, or the [_RAISE] sentinel. *)
Inductive applied :=
| _RAISE
| Value (v : pyval).

(** [strategy == literal] *)
Definition strategy_is (s : strategy) (literal : string) : bool :=
  match s with
  | SValue (VStr x) => bool_decide (x = literal)
  | _ => false
  end.

(** [logging.getLogger(name).exception(msg, qualname, exception)] *)
Definition logger_exception (name msg qualname : string) (exception : exn)
    : exec world () :=
  λ w, (Return (),
        emit (LogRecord name "ERROR" msg (qualname, exception)
                (Some exception)) w).

(** Any callable object, as [handle_errors] is handed one.  A function has
    all the attributes below.  An object that is callable without being a
    function (a [functools.partial], an instance of a class with
    [__call__]) finds [__module__] and [__doc__] through its class, but has
    no [__name__] and no [__qualname__] unless they were set on it: reading
    a missing one raises [AttributeError], and [functools.wraps] skips it.
    [callable_type] is [type(func).__name__] as that error prints it. *)
Record pycallable := PyCallable {
  callable_type : string;
  callable_name : option string;
  callable_qualname : option string;
  callable_module : option string;
  callable_doc : option string;
  callable_signature : list parameter;
  callable_type_hints : gmap string TypeDescriptor;
  callable_call : list pyval → arguments → exec world pyval
}.

(** A function is a callable with every attribute present. *)
Definition Function (f : pyfunc) : pycallable :=
  PyCallable "function" (Some (__name__ f)) (Some (__qualname__ f))
    (__module__ f) (__doc__ f) (signature f) (get_type_hints f) (call f).
Coercion Function : pyfunc >-> pycallable.

(** [func.__module__ or __name__], inside specwright/decorators.py *)
Definition logger_name (func : pycallable) : string :=
  match callable_module func with
  | Some (String a m) => String a m
  | _ => "specwright.decorators"
  end.

(** The arguments of [logger.exception] are evaluated before the call, so a
    callable without [__qualname__] raises [AttributeError] with nothing
    logged. *)
Definition _apply_strategy (s : strategy) (exception : exn) (func : pycallable)
    : exec world applied :=
  if strategy_is s "ignore" then pure (Value VNone)
  else if strategy_is s "log" then
    match callable_qualname func with
    | Some qualname =>
        let! _ := logger_exception (logger_name func) "Error in '%s': %s"
                    qualname exception in
        pure _RAISE
    | None =>
        throw (new_exn AttributeError
          ("'" +:+ callable_type func +:+
           "' object has no attribute '__qualname__'"))
    end
  else
    match s with
    | SCallable f => let! v := f exception in pure (Value v)
    | SValue v => pure (Value v)
    end.

(** [isinstance(e, exc_type)] for a key of the handlers dict *)
Definition key_isinstance (e : exn) (k : handler_key) : bool :=
  match k with
  | KType t => isinstance e t
  | KOther _ => false
  end.

Section keys.
Context (key_repr : handler_key → string) (key_type_name : handler_key → string).

Fixpoint _validate_handlers (handlers : HandlerMap) : outcome () :=
  match handlers with
  | [] => Return ()
  | (exc_type, _) :: handlers =>
      let ok :=
        match exc_type with
        | KType t => issubclass_BaseException t
        | KOther _ => false
        end in
      if negb ok then
        Raise (new_exn HandlingStrategyError
          ("Handler key must be an exception type, " +:+
           "got " +:+ key_type_name exc_type +:+ ": " +:+ key_repr exc_type))
      else _validate_handlers handlers
  end.

End keys.

(** The [for exc_type, strategy in handlers.items()] loop of the wrapper;
    [None] when the loop ends without a match. *)
Fixpoint dispatch (items : HandlerMap) (e : exn) (fn : pycallable)
    : option (exec world pyval) :=
  match items with
  | [] => None
  | (exc_type, strategy) :: items =>
      if key_isinstance e exc_type then
        Some (let! result := _apply_strategy strategy e fn in
              match result with
              | _RAISE => throw e
              | Value v => pure v
              end)
      else dispatch items e fn
  end.

(** The [wrapper] closure of [handle_errors]. *)
Definition handle_errors_wrapper (handlers : HandlerMap)
    (catchable : list handler_key) (fn : pycallable) (args : list pyval)
    (kwargs : arguments) : exec world pyval :=
  try_except (callable_call fn args kwargs)
    (λ e, existsb (key_isinstance e) catchable)
    (λ e, match dispatch handlers e fn with
          | Some handled => handled
          | None => throw e
          end).

(** The [decorator] closure of [handle_errors]: the wrapper, a function,
    with the attributes of [fn] as [functools.wraps] copies them; where
    [fn] has no [__name__] or [__qualname__] the wrapper keeps its own. *)
Definition decorator (handlers : HandlerMap) (catchable : list handler_key)
    (fn : pycallable) : pyfunc :=
  PyFunc (default "wrapper" (callable_name fn))
    (default "handle_errors.<locals>.decorator.<locals>.wrapper"
       (callable_qualname fn))
    (callable_module fn) (callable_doc fn)
    (callable_signature fn) (callable_type_hints fn)
    (handle_errors_wrapper handlers catchable fn).

(** [handle_errors(handlers)]: the decorator, or the configuration error. *)
Definition handle_errors (key_repr key_type_name : handler_key → string)
    (handlers : HandlerMap) : outcome (pycallable → pyfunc) :=
  match _validate_handlers key_repr key_type_name handlers with
  | Raise e => Raise e
  | Return _ => Return (decorator handlers handlers.*1)
  end.

End Decorators.

(** ** specwright/state_machine.py *)

Module StateMachine.
Import Py.

Record TransitionMeta := mkTransitionMeta {
  from_states : gset string;
  to_state : string
}.

(** The [from_state] argument of [transition]: one name or a list of names. *)
Inductive from_state_arg :=
| One (s : string)
| Many (l : list string).

Definition transition_meta (from_state : from_state_arg) (to_state : string)
    : TransitionMeta :=
  mkTransitionMeta
    (match from_state with
     | One s => {[ s ]}
     | Many l => list_to_set l
     end)
    to_state.

(** [sorted(names)] for a set of strings: increasing in the order of code
    points, which on UTF-8 strings is the order of bytes. *)
Definition sorted (names : gset string) : list string :=
  merge_sort String.le (elements names).

(** *** Instances *)

(** List objects live in a heap, so that two references to one list can be
    told from two lists with equal contents. *)
Abbreviation loc := positive.

Record instance := Instance {
  _state : string;
  _state_history : loc;
  __dict__ : gmap string pyval
}.

Record store := Store {
  self : instance;
  heap : gmap loc (list string)
}.

(** What attribute lookup on [self] finds in the class: a callable, or a
    value that is not callable. *)
Inductive pyattr :=
| Callable (f : exec store pyval)
| Plain (v : pyval).

Record class_view := ClassView {
  view_initial_state : string;
  view_track_history : bool;
  view_getattr : string → option pyattr
}.

Record pymethod := Method {
  m_name : string;
  m_call : list pyval → arguments → exec store pyval
}.

(** [self.state] *)
Definition state (w : store) : string := _state (self w).

(** The contents of the list [self._state_history] refers to *)
Definition history (w : store) : list string :=
  default [] (heap w !! _state_history (self w)).

Definition get_state : exec store string := λ w, (Return (_state (self w)), w).

Definition set_state (s : string) : exec store () :=
  λ w, (Return (),
        Store (Instance s (_state_history (self w)) (__dict__ (self w)))
              (heap w)).

(** [self._state_history.append(s)] *)
Definition history_append (s : string) : exec store () :=
  λ w, (Return (),
        Store (self w)
              (alter (λ l, l ++ [s]) (_state_history (self w)) (heap w))).

(** [hook = getattr(self, name, None); if callable(hook): hook()] *)
Definition call_hook (cls : class_view) (name : string) : exec store () :=
  match view_getattr cls name with
  | Some (Callable hook) => let! _ := hook in pure ()
  | _ => pure ()
  end.

Definition transition_error (meta : TransitionMeta) (method : pymethod)
    (current : string) : exn :=
  let expected := String.concat ", " (sorted (from_states meta)) in
  new_exn InvalidTransitionError
    ("Cannot transition from '" +:+ current +:+ "' to " +:+
     "'" +:+ to_state meta +:+ "' via '" +:+ m_name method +:+ "'. " +:+
     "Valid source state(s): " +:+ expected).

(** The [wrapper] closure of [transition]. *)
Definition transition_wrapper (cls : class_view) (meta : TransitionMeta)
    (method : pymethod) (args : list pyval) (kwargs : arguments)
    : exec store pyval :=
  let! current := get_state in
  if negb (bool_decide (current ∈ from_states meta)) then
    throw (transition_error meta method current)
  else
    let! result := m_call method args kwargs in
    let! old_state := get_state in
    let! _ := call_hook cls ("on_exit_" +:+ old_state) in
    let! _ := set_state (to_state meta) in
    let! _ := (if view_track_history cls
               then history_append (to_state meta)
               else pure ()) in
    let! _ := call_hook cls ("on_enter_" +:+ to_state meta) in
    pure result.

(** [StateMachine.__init__]: the history list is a new object. *)
Definition __init__ (cls : class_view) (h : gmap loc (list string)) : store :=
  let l := fresh (dom h) in
  Store (Instance (view_initial_state cls) l ∅)
        (<[l := if view_track_history cls then [view_initial_state cls]
                else []]> h).

(** The [state_history] property: [list(self._state_history)] is a new list
    object with the same items; the reference to it is returned. *)
Definition state_history : exec store loc :=
  λ w, let l := fresh (dom (heap w)) in
       (Return l, Store (self w) (<[l := history w]> (heap w))).

(** Any in-place change ([append], [clear], item assignment, ...) of the list
    object at [l]. *)
Definition list_mutate (l : loc) (f : list string → list string)
    : exec store () :=
  λ w, (Return (), Store (self w) (alter f l (heap w))).

(** *** Class definitions *)

(** What [getattr(attr, "__transition__", None)] finds on a class
    attribute. *)
Inductive class_attr :=
| Transition (meta : TransitionMeta)
| Other.

(** The body of a [class] statement.  [states], [initial_state] and
    [track_history] are [None] when the body does not assign them; the
    namespace holds the other names the body defines. *)
Record class_body := ClassBody {
  cname : string;
  states : option (list string);
  initial_state : option string;
  track_history : option bool;
  namespace : list (string * class_attr)
}.

(** A class: [StateMachine] itself, or a class statement on top of a base. *)
Inductive pyclass :=
| StateMachine
| Subclass (body : class_body) (base : pyclass).

Definition cls___name__ (cls : pyclass) : string :=
  match cls with
  | StateMachine => "StateMachine"
  | Subclass body _ => cname body
  end.

(** Attribute lookup along the MRO.  [StateMachine] annotates [states] and
    [initial_state] without assigning them. *)
Fixpoint cls_states (cls : pyclass) : option (list string) :=
  match cls with
  | StateMachine => None
  | Subclass body base =>
      match states body with
      | Some s => Some s
      | None => cls_states base
      end
  end.

Fixpoint cls_initial_state (cls : pyclass) : option string :=
  match cls with
  | StateMachine => None
  | Subclass body base =>
      match initial_state body with
      | Some s => Some s
      | None => cls_initial_state base
      end
  end.

Definition StateMachine_namespace : list (string * class_attr) :=
  [("__init__", Other); ("__init_subclass__", Other); ("state", Other);
   ("state_history", Other)].

Fixpoint cls_getattr (cls : pyclass) (name : string) : option class_attr :=
  match cls with
  | StateMachine => dict_get name StateMachine_namespace
  | Subclass body base =>
      match dict_get name (namespace body) with
      | Some a => Some a
      | None => cls_getattr base name
      end
  end.

Fixpoint cls_names (cls : pyclass) : list string :=
  match cls with
  | StateMachine => StateMachine_namespace.*1
  | Subclass body base => (namespace body).*1 ++ cls_names base
  end.

(** [dir(cls)]: the names along the MRO, without repeats, sorted.  The
    names of [object] and the three declarations of [class_body] are left
    out: none of them carries a [__transition__]. *)
Definition dir (cls : pyclass) : list string :=
  merge_sort String.le (remove_dups (cls_names cls)).

Section rendering.
Context (py_repr : pyval → string).

Definition repr_names (names : list string) : string :=
  py_repr (VList (VStr <$> names)).

(** The [for attr_name in dir(cls)] loop of the class validation. *)
Fixpoint check_transitions (cls : pyclass) (state_set : gset string)
    (names : list string) : outcome () :=
  match names with
  | [] => Return ()
  | attr_name :: names =>
      match cls_getattr cls attr_name with
      | Some (Transition meta) =>
          let invalid_from := from_states meta ∖ state_set in
          if negb (bool_decide (invalid_from = ∅)) then
            Raise (new_exn InvalidStateError
              ("Transition '" +:+ attr_name +:+ "' in '" +:+
               cls___name__ cls +:+ "' references " +:+
               "invalid from_state(s): " +:+ repr_names (sorted invalid_from)))
          else if negb (bool_decide (to_state meta ∈ state_set)) then
            Raise (new_exn InvalidStateError
              ("Transition '" +:+ attr_name +:+ "' in '" +:+
               cls___name__ cls +:+ "' references " +:+
               "invalid to_state: '" +:+ to_state meta +:+ "'"))
          else check_transitions cls state_set names
      | _ => check_transitions cls state_set names
      end
  end.

Definition _validate_state_machine_class (cls : pyclass) : outcome () :=
  match cls_states cls with
  | None =>
      Raise (new_exn AttributeError
        ("type object '" +:+ cls___name__ cls +:+
         "' has no attribute 'states'"))
  | Some [] =>
      Raise (new_exn InvalidStateError
        ("StateMachine '" +:+ cls___name__ cls +:+
         "' must define at least one state."))
  | Some states =>
      let state_set : gset string := list_to_set states in
      match cls_initial_state cls with
      | None =>
          Raise (new_exn InvalidStateError
            ("StateMachine '" +:+ cls___name__ cls +:+
             "' must define 'initial_state'."))
      | Some initial =>
          if negb (bool_decide (initial ∈ state_set)) then
            Raise (new_exn InvalidStateError
              ("Initial state '" +:+ initial +:+ "' is not in the defined " +:+
               "states for '" +:+ cls___name__ cls +:+ "': " +:+
               repr_names states))
          else check_transitions cls state_set (dir cls)
      end
  end.

(** [StateMachine.__init_subclass__] *)
Definition __init_subclass__ (cls : pyclass) : outcome () :=
  if bool_decide (is_Some (cls_states cls)) then
    _validate_state_machine_class cls
  else Return ().

(** A [class] statement with the given body and base: the new class, or the
    exception [__init_subclass__] raises. *)
Definition class_statement (body : class_body) (base : pyclass)
    : outcome pyclass :=
  let cls := Subclass body base in
  match __init_subclass__ cls with
  | Raise e => Raise e
  | Return _ => Return cls
  end.

End rendering.

End StateMachine.

(** ** specwright/testing.py and specwright/pytest_plugin.py *)

Module Testing.
Import Py Validation.

Record TestRequirements := mkTestRequirements {
  function_name : string;
  qualname : string;
  module : option string;
  happy_path : bool;
  edge_cases : list string;
  error_cases : list string
}.

(** One [for case in cases: names.append(...)] loop of
    [expected_test_names]. *)
Fixpoint append_cases (function_name : string) (cases names : list string)
    : list string :=
  match cases with
  | [] => names
  | case :: cases =>
      append_cases function_name cases
        (names ++ ["test_" +:+ function_name +:+ "_" +:+ case])
  end.

Definition expected_test_names (self : TestRequirements) : list string :=
  let names :=
    if happy_path self
    then ["test_" +:+ function_name self +:+ "_happy_path"]
    else [] in
  let names := append_cases (function_name self) (edge_cases self) names in
  append_cases (function_name self) (error_cases self) names.

(** [requires_tests(happy_path=..., edge_cases=..., error_cases=...)(func)],
    run on the module's [_registry]: the wrapper, the requirements attached
    to it as [__test_requirements__], and the registry afterwards. *)
Definition requires_tests (happy_path : bool)
    (edge_cases error_cases : option (list string)) (func : pyfunc)
    (_registry : list TestRequirements)
    : pyfunc * TestRequirements * list TestRequirements :=
  let reqs :=
    mkTestRequirements (__name__ func) (__qualname__ func) (__module__ func)
      happy_path (default [] edge_cases) (default [] error_cases) in
  let wrapper :=
    PyFunc (__name__ func) (__qualname__ func) (__module__ func)
      (__doc__ func) (signature func) (get_type_hints func)
      (λ args kwargs, call func args kwargs) in
  (wrapper, reqs, _registry ++ [reqs]).

Definition MissingTestsError : pytype := Py.MissingTestsError.

(** A collected pytest item: whether it is a [pytest.Function], and its
    name. *)
Record item := Item {
  is_Function : bool;
  item_name : string
}.

(** The loop building [collected_names]. *)
Fixpoint collect_names (items : list item) (collected_names : gset string)
    : gset string :=
  match items with
  | [] => collected_names
  | item :: items =>
      collect_names items
        (if is_Function item then collected_names ∪ {[ item_name item ]}
         else collected_names)
  end.

(** The loop building [missing_by_func], a dict keyed by qualified name. *)
Fixpoint find_missing (registry : list TestRequirements)
    (collected_names : gset string) (missing_by_func : gmap string (list string))
    : gmap string (list string) :=
  match registry with
  | [] => missing_by_func
  | reqs :: registry =>
      let missing :=
        List.filter (λ name, negb (bool_decide (name ∈ collected_names)))
          (expected_test_names reqs) in
      find_missing registry collected_names
        (match missing with
         | [] => missing_by_func
         | _ => <[qualname reqs := missing]> missing_by_func
         end)
  end.

(** [sorted(missing_by_func.items())]: the keys are distinct, so the items
    come in the order of their keys. *)
Definition sorted_items (d : gmap string (list string))
    : list (string * list string) :=
  merge_sort (λ a b, String.le a.1 b.1) (map_to_list d).

(** The loop building the lines of the report. *)
Fixpoint report_lines (entries : list (string * list string))
    (lines : list string) : list string :=
  match entries with
  | [] => lines
  | (qualname, names) :: entries =>
      report_lines entries
        ((lines ++ ["  " +:+ qualname +:+ ":"])
         ++ ((λ name, "    - " +:+ name) <$> names))
  end.

(** What the warnings filter in force does with a warning: it turns it into
    an exception (action "error"), shows it, or drops it (action "ignore",
    or a repetition under "default", "module" or "once"). *)
Inductive filter_action := ActionError | ActionShow | ActionDrop.

(** [warnings.warn(message, stacklevel=1)], the category being
    [UserWarning]: what the call does and the warnings shown. *)
Definition warnings_warn (action : filter_action) (message : string)
    : outcome () * list string :=
  match action with
  | ActionError => (Raise (new_exn UserWarning message), [])
  | ActionShow => (Return (), [message])
  | ActionDrop => (Return (), [])
  end.

(** [pytest_collection_modifyitems], given what the warnings filter does
    with the hook's warning, the value of the ini option
    [specwright_test_enforcement], the registry and the collected items: what
    the hook does (returns or raises) and the warnings shown. *)
Definition pytest_collection_modifyitems (action : filter_action)
    (enforcement : string) (registry : list TestRequirements)
    (items : list item) : outcome () * list string :=
  if bool_decide (enforcement = "off") then (Return (), [])
  else
    match registry with
    | [] => (Return (), [])
    | _ =>
        let collected_names := collect_names items ∅ in
        let missing_by_func := find_missing registry collected_names ∅ in
        if bool_decide (missing_by_func = ∅) then (Return (), [])
        else
          let lines :=
            report_lines (sorted_items missing_by_func)
              ["Missing required tests:"] in
          let report := String.concat newline lines in
          if bool_decide (enforcement = "strict") then
            (Raise (new_exn MissingTestsError report), [])
          else warnings_warn action report
    end.

End Testing.

(** ** Programs of the test suite, used to run the engines *)

Module Examples.
Import Py Validation Decorators.

Definition w0 : world := World [] ∅.

(** Python's [repr] on the values the examples pass around (strings without
    quotes or escapes) and [str] of the hints they declare. *)
Definition repr_atom (v : pyval) : string :=
  match v with
  | VNone => "None"
  | VBool true => "True"
  | VBool false => "False"
  | VInt z => pretty z
  | VStr s => "'" +:+ s +:+ "'"
  | _ => "<object>"
  end.

Definition repr (v : pyval) : string :=
  match v with
  | VList items => "[" +:+ String.concat ", " (repr_atom <$> items) +:+ "]"
  | _ => repr_atom v
  end.

Definition hint_str (t : TypeDescriptor) : string :=
  match t with
  | Primitive KInt => "<class 'int'>"
  | Primitive KBool => "<class 'bool'>"
  | Primitive KStr => "<class 'str'>"
  | Primitive KFloat => "<class 'float'>"
  | Primitive KNone => "<class 'NoneType'>"
  | _ => "<hint>"
  end.

Definition key_repr (k : handler_key) : string :=
  match k with
  | KType t => "<class '" +:+ type___name__ t +:+ "'>"
  | KOther v => repr v
  end.

Definition key_type_name (k : handler_key) : string :=
  match k with
  | KType _ => "type"
  | KOther v => type_name v
  end.

(** tests/test_handle_errors.py, test_first_matching_handler_wins:
    [def fail() -> str: raise ValueError("test")] under the handlers
    [{ValueError: "first", Exception: "second"}]. *)
Definition fail : pyfunc :=
  def "fail" "fail" (Some "tests.test_handle_errors") None []
    {[ "return" := Primitive KStr ]}
    (λ _, throw (new_exn ValueError "test")).

Definition first_second : HandlerMap :=
  [(KType ValueError, SValue (VStr "first"));
   (KType Exception, SValue (VStr "second"))].



(** examples/database_operations.py: the exception classes of the module,
    one of them named like the builtin [ConnectionError]; the handlers over
    them, [rollback_and_report] setting [db.rolled_back]. *)
Definition DatabaseError : pytype := subclass 101 "DatabaseError" Exception.
Definition IntegrityError : pytype :=
  subclass 102 "IntegrityError" DatabaseError.
Definition ConnectionError : pytype :=
  subclass 103 "ConnectionError" DatabaseError.

Definition rollback_and_report (exc : exn) : exec world pyval :=
  λ w, (Return (VDict [(VStr "status", VStr "error");
                       (VStr "message", VStr (exc_str exc));
                       (VStr "rolled_back", VStr "true")]),
        World (sink w) (<["db.rolled_back" := VBool true]> (globals w))).

Definition database_handlers : HandlerMap :=
  [(KType IntegrityError, SCallable rollback_and_report);
   (KType ConnectionError, SCallable rollback_and_report);
   (KType DatabaseError, SValue (VStr "log"))].

(** An operation that loses its connection, raising the [ConnectionError] of
    the module or the builtin one. *)
Definition connect (builtin : bool) : pyfunc :=
  def "connect" "connect" (Some "examples.database_operations")
    (Some "Open the connection.") [] {[ "return" := Primitive KNone ]}
    (λ _, throw (new_exn (if builtin then Py.ConnectionError
                          else ConnectionError) "refused")).

(** tests/test_decorators.py, test_bool_rejected_for_int:
    [def double(x: int) -> int: return x * 2]. *)
Definition double : pyfunc :=
  def "double" "double" (Some "tests.test_decorators") (Some "Double it.")
    [mk_parameter "x" POSITIONAL_OR_KEYWORD None]
    {[ "x" := Primitive KInt; "return" := Primitive KInt ]}
    (λ bound,
       match dict_get "x" bound with
       | Some (VInt z) => pure (VInt (z * 2))
       | Some (VBool b) => pure (VInt (if b then 2 else 0))
       | _ => throw (new_exn TypeError "unsupported operand")
       end).

(** tests/test_validation.py, test_multiple_invalid_inputs:
    [def func(x: int, y: str) -> None: ...]. *)
Definition func : pyfunc :=
  def "func" "func" (Some "tests.test_validation") (Some "Do nothing.")
    [mk_parameter "x" POSITIONAL_OR_KEYWORD None;
     mk_parameter "y" POSITIONAL_OR_KEYWORD None]
    {[ "x" := Primitive KInt; "y" := Primitive KStr;
       "return" := Primitive KNone ]}
    (λ _, pure VNone).

(** A function whose only parameter is called [self] and is annotated:
    [def scale(self: int) -> int: return 1]. *)
Definition scale : pyfunc :=
  def "scale" "scale" (Some "tests.test_validation") (Some "Scale it.")
    [mk_parameter "self" POSITIONAL_OR_KEYWORD None]
    {[ "self" := Primitive KInt; "return" := Primitive KInt ]}
    (λ _, pure (VInt 1)).

(** tests/test_decorators.py, test_invalid_output_raises:
    [def bad(x: int) -> int: return "not_an_int"]. *)
Definition bad : pyfunc :=
  def "bad" "bad" (Some "tests.test_decorators") (Some "Return wrong type.")
    [mk_parameter "x" POSITIONAL_OR_KEYWORD None]
    {[ "x" := Primitive KInt; "return" := Primitive KInt ]}
    (λ _, pure (VStr "not_an_int")).


(** [def func(x, y): ...] again, with a docstring that holds the file
    separator U+001C and nothing else. *)
Definition separator_doc : pyfunc :=
  def "func" "func" (Some "tests.test_validation")
    (Some (String "028"%char ""))
    [mk_parameter "x" POSITIONAL_OR_KEYWORD None;
     mk_parameter "y" POSITIONAL_OR_KEYWORD None]
    ∅
    (λ _, pure VNone).

(** tests/test_handle_errors.py, test_handle_errors_inside_spec_output_mismatch:
    [def risky(x: int) -> int: raise ValueError("boom")]. *)
Definition risky : pyfunc :=
  def "risky" "risky" (Some "tests.test_handle_errors") (Some "Return an int.")
    [mk_parameter "x" POSITIONAL_OR_KEYWORD None]
    {[ "x" := Primitive KInt; "return" := Primitive KInt ]}
    (λ _, throw (new_exn ValueError "boom")).

Definition ignore_handlers : HandlerMap :=
  [(KType ValueError, SValue (VStr "ignore"))].

Definition caught_handlers : HandlerMap :=
  [(KType Exception, SValue (VStr "caught"))].

Definition fallback_handlers : HandlerMap :=
  [(KType ValueError, SValue (VStr "not_an_int"))].

Definition violation_handlers : HandlerMap :=
  [(KType InputValidationError, SValue (VStr "invalid input"))].

(** test_lambda_handler: [{ValueError: lambda e: f"handled: {e}"}]. *)
Definition lambda_handlers : HandlerMap :=
  [(KType ValueError,
    SCallable (λ e, pure (VStr ("handled: " +:+ exc_str e))))].

(** test_non_exception_key_rejected: [{"not_a_type": "ignore"}]. *)
Definition string_key_handlers : HandlerMap :=
  [(KOther (VStr "not_a_type"), SValue (VStr "ignore"))].

(** The docstring example of [requires_tests]: [create_user] with a
    happy-path test, two edge cases and two error cases. *)
Definition create_user : pyfunc :=
  def "create_user" "create_user" (Some "app.users") None
    [mk_parameter "email" POSITIONAL_OR_KEYWORD None;
     mk_parameter "age" POSITIONAL_OR_KEYWORD None]
    {[ "email" := Primitive KStr; "age" := Primitive KInt ]}
    (λ _, pure VNone).

Definition create_user_registry : list Testing.TestRequirements :=
  (Testing.requires_tests true (Some ["empty_input"; "max_boundaries"])
     (Some ["invalid_email"; "negative_age"]) create_user []).2.

(** A test session that collected the happy-path test only, and a class of
    the same name as one of the edge-case tests. *)
Definition collected_items : list Testing.item :=
  [Testing.Item true "test_create_user_happy_path";
   Testing.Item false "test_create_user_empty_input"].

End Examples.

(** ** State machines of the test suite *)

Module Machines.
Import Py StateMachine.

(** tests/test_state_machine.py, test_exception_prevents_state_change:
    states [a, b], initial [a], and
    [@transition(from_state="a", to_state="b") def go(self): raise
    RuntimeError("failed")]. *)
Definition Machine : class_view := ClassView "a" false (λ _, None).
Definition go_meta : TransitionMeta := transition_meta (One "a") "b".
Definition go : pymethod :=
  Method "go" (λ _ _, throw (new_exn RuntimeError "failed")).

(** The order machine of the end-to-end scenario: states
    [pending, paid, shipped], initial [pending], history tracking on,
    [pay: pending → paid] and [ship: paid → shipped]. *)
Definition Order : class_view := ClassView "pending" true (λ _, None).
Definition pay_meta : TransitionMeta := transition_meta (One "pending") "paid".
Definition pay : pymethod := Method "pay" (λ _ _, pure VNone).
Definition ship_meta : TransitionMeta := transition_meta (One "paid") "shipped".
Definition ship : pymethod := Method "ship" (λ _ _, pure VNone).



(** test_invalid_initial_state: [states = ["a", "b"]; initial_state = "z"]. *)
Definition Bad : class_body :=
  ClassBody "Bad" (Some ["a"; "b"]) (Some "z") None [].

(** test_subclass_inherits_and_extends: [Base] declares the states and
    [go_b]; a subclass adds [go_c]. *)
Definition Base : class_body :=
  ClassBody "Base" (Some ["a"; "b"; "c"]) (Some "a") None
    [("go_b", Transition (transition_meta (One "a") "b"))].

Definition Child : class_body :=
  ClassBody "Child" None None None
    [("go_c", Transition (transition_meta (One "b") "c"))].

(** A subclass of [Base] that narrows the states, so that the inherited
    [go_b] refers to a state that is not declared any more. *)
Definition Narrow : class_body :=
  ClassBody "Narrow" (Some ["a"]) None None [].

(** A class that assigns no [states], directly under [StateMachine], with a
    transition between names that are declared nowhere. *)
Definition Mixin : class_body :=
  ClassBody "Mixin" None (Some "nowhere") None
    [("jump", Transition (transition_meta (One "x") "y"))].

(** A machine with history tracking whose hook [on_enter_b] raises, and one
    whose hook [on_exit_a] raises; [step: a → b] has an empty body. *)
Definition EnterFails : class_view :=
  ClassView "a" true
    (λ name, if decide (name = "on_enter_b")
             then Some (Callable (throw (new_exn ValueError "enter")))
             else None).
Definition ExitFails : class_view :=
  ClassView "a" true
    (λ name, if decide (name = "on_exit_a")
             then Some (Callable (throw (new_exn ValueError "exit")))
             else None).
Definition step_meta : TransitionMeta := transition_meta (One "a") "b".
Definition step : pymethod := Method "step" (λ _ _, pure VNone).

(** Another class without [states]: [close] goes from [open] to [closed],
    and neither name is declared. *)
Definition Loose : class_body :=
  ClassBody "Loose" None None None
    [("close", Transition (transition_meta (One "open") "closed"))].


(** A machine with history tracking and a guarded operation whose body runs
    another guarded operation before it fails:
    [@transition(from_state="a", to_state="b") def advance(self): pass] and
    [@transition(from_state="a", to_state="c") def leap(self):
    self.advance(); raise RuntimeError("failed")]. *)
Definition Tracked : class_view := ClassView "a" true (λ _, None).
Definition advance_meta : TransitionMeta := transition_meta (One "a") "b".
Definition advance : pymethod := Method "advance" (λ _ _, pure VNone).
Definition leap_meta : TransitionMeta := transition_meta (One "a") "c".
Definition leap : pymethod :=
  Method "leap"
    (λ _ _,
       let! _ := transition_wrapper Tracked advance_meta advance [] [] in
       throw (new_exn RuntimeError "failed")).

End Machines.

(** ** The Error Dispatch Engine *)

Module ErrorDispatch.
Import Py Validation Decorators.

(** [isinstance] holds for the type of the exception itself and for every
    class of its MRO, not for the exact type only. *)
Lemma isinstance_own_type id name base msg :
  isinstance (new_exn (subclass id name base) msg) (subclass id name base)
    = true.
Proof. apply bool_decide_eq_true. simpl. left. Qed.

Lemma isinstance_supertype id name base msg t :
  isinstance (new_exn base msg) t = true →
  isinstance (new_exn (subclass id name base) msg) t = true.
Proof.
  intros Hin%bool_decide_eq_true. apply bool_decide_eq_true. simpl. by right.
Qed.

Definition no_match (e : exn) (entries : HandlerMap) : Prop :=
  Forall (λ entry, key_isinstance e entry.1 = false) entries.

(** Resolving what [_apply_strategy] returned, as the wrapper does. *)
Definition resolve (e : exn) (result : applied) : exec world pyval :=
  match result with
  | _RAISE => throw e
  | Value v => pure v
  end.

Lemma dispatch_skips e fn (pre rest : HandlerMap) :
  no_match e pre → dispatch (pre ++ rest) e fn = dispatch rest e fn.
Proof.
  induction 1 as [|[k s] pre Hk _ IH]; simpl in *; [done|].
  by rewrite Hk.
Qed.

Lemma dispatch_hit e fn k s (post : HandlerMap) :
  key_isinstance e k = true →
  dispatch ((k, s) :: post) e fn =
    Some (let! result := _apply_strategy s e fn in resolve e result).
Proof. intros Hk. simpl. by rewrite Hk. Qed.

Lemma dispatch_none e fn (entries : HandlerMap) :
  no_match e entries → dispatch entries e fn = None.
Proof.
  intros H. rewrite <-(app_nil_r entries). by rewrite dispatch_skips.
Qed.

Lemma catchable_no_match e (entries : HandlerMap) :
  no_match e entries → existsb (key_isinstance e) entries.*1 = false.
Proof.
  induction 1 as [|[k s] entries Hk _ IH]; simpl in *; [done|].
  by rewrite Hk.
Qed.

Lemma catchable_hit e (pre post : HandlerMap) k s :
  key_isinstance e k = true →
  existsb (key_isinstance e) (pre ++ (k, s) :: post).*1 = true.
Proof.
  intros Hk. rewrite fmap_app, existsb_app. simpl. rewrite Hk.
  by rewrite orb_true_r.
Qed.

(** The [raise] after the loop of the wrapper is never reached: an exception
    the [except] clause lets in is matched by some entry of the loop. *)
Lemma dispatch_total e fn (entries : HandlerMap) :
  existsb (key_isinstance e) entries.*1 = true →
  is_Some (dispatch entries e fn).
Proof.
  induction entries as [|[k s] entries IH]; simpl; [done|].
  destruct (key_isinstance e k); simpl; eauto.
Qed.

(** The wrapper on a call that raises [e], when the first matching entry is
    [(k, s)]. *)
Lemma wrapper_first_match (pre post : HandlerMap) k s fn args kwargs w e w1 :
  callable_call fn args kwargs w = (Raise e, w1) →
  no_match e pre →
  key_isinstance e k = true →
  handle_errors_wrapper (pre ++ (k, s) :: post) (pre ++ (k, s) :: post).*1
      fn args kwargs w =
    (let! result := _apply_strategy s e fn in resolve e result) w1.
Proof.
  intros Hcall Hpre Hk. unfold handle_errors_wrapper, try_except.
  rewrite Hcall, (catchable_hit _ _ _ _ _ Hk).
  by rewrite (dispatch_skips _ _ _ _ Hpre), (dispatch_hit _ _ _ _ _ Hk).
Qed.

Lemma wrapper_no_match (handlers : HandlerMap) fn args kwargs w e w1 :
  callable_call fn args kwargs w = (Raise e, w1) →
  no_match e handlers →
  handle_errors_wrapper handlers handlers.*1 fn args kwargs w = (Raise e, w1).
Proof.
  intros Hcall Hno. unfold handle_errors_wrapper, try_except.
  by rewrite Hcall, (catchable_no_match _ _ Hno).
Qed.

Lemma handle_errors_decorator key_repr key_type_name handlers decorate :
  handle_errors key_repr key_type_name handlers = Return decorate →
  decorate = decorator handlers handlers.*1.
Proof.
  unfold handle_errors.
  destruct (_validate_handlers _ _ _); by intros [= <-].
Qed.

(** A call that returns is passed through. *)
Lemma wrapper_return (handlers : HandlerMap) fn args kwargs w v w1 :
  callable_call fn args kwargs w = (Return v, w1) →
  handle_errors_wrapper handlers handlers.*1 fn args kwargs w = (Return v, w1).
Proof. intros Hcall. unfold handle_errors_wrapper, try_except. by rewrite Hcall. Qed.

(** What each kind of strategy resolves to. *)
Lemma resolve_ignore e fn w :
  (let! result := _apply_strategy (SValue (VStr "ignore")) e fn in
   resolve e result) w = (Return VNone, w).
Proof. done. Qed.



Lemma resolve_callable f e fn w :
  (let! result := _apply_strategy (SCallable f) e fn in
   resolve e result) w = f e w.
Proof.
  unfold _apply_strategy, bind, pure; simpl.
  by destruct (f e w) as [[v|e'] w'].
Qed.

Lemma resolve_literal v e fn w :
  strategy_is (SValue v) "ignore" = false →
  strategy_is (SValue v) "log" = false →
  (let! result := _apply_strategy (SValue v) e fn in
   resolve e result) w = (Return v, w).
Proof. intros H1 H2. unfold _apply_strategy. by rewrite H1, H2. Qed.

(** C1. When the wrapped callable raises [e], the wrapper built by
    [handle_errors] walks the handlers in declaration order and applies the
    strategy of the first entry whose exception type is the class of [e] or
    one of its superclasses ([isinstance], by class identity along the MRO,
    not equality of types); the entries behind it play no part, whether
    they match or not.  When no entry matches, [e] propagates as it is.
    This holds for every callable, function or not. *)
Theorem handle_errors_first_match_wins key_repr key_type_name
    (handlers : HandlerMap) decorate (fn : pycallable) args kwargs w e w1 :
  handle_errors key_repr key_type_name handlers = Return decorate →
  callable_call fn args kwargs w = (Raise e, w1) →
  (∀ pre exc_type strategy post,
     handlers = pre ++ (exc_type, strategy) :: post →
     no_match e pre →
     key_isinstance e exc_type = true →
     call (decorate fn) args kwargs w =
       (let! result := _apply_strategy strategy e fn in resolve e result) w1)
  ∧ (no_match e handlers → call (decorate fn) args kwargs w = (Raise e, w1)).
Proof.
  intros ->%handle_errors_decorator Hcall. split.
  - intros pre k s post -> Hpre Hk. simpl. by apply wrapper_first_match.
  - intros Hno. simpl. by apply wrapper_no_match.
Qed.

(** [ValueError("test")] is an instance of both [ValueError] and
    [Exception]; the entry declared first decides. *)
Lemma handle_errors_first_match_wins_witness :
  isinstance (new_exn ValueError "test") Exception = true ∧
  call (decorator Examples.first_second Examples.first_second.*1 Examples.fail)
    [] [] Examples.w0 = (Return (VStr "first"), Examples.w0).
Proof.
  split; [reflexivity|].
  refine (proj1 (handle_errors_first_match_wins Examples.key_repr
    Examples.key_type_name Examples.first_second _ Examples.fail [] []
    Examples.w0 (new_exn ValueError "test") Examples.w0 _ _)
    [] (KType ValueError) (SValue (VStr "first"))
    [(KType Exception, SValue (VStr "second"))] _ _ _).
  - reflexivity.
  - reflexivity.
  - reflexivity.
  - constructor.
  - reflexivity.
Defined.

(** Classes are matched by identity, not by name.  In
    examples/database_operations.py the module's own [ConnectionError]
    derives from [DatabaseError]: raised, it skips the [IntegrityError]
    entry and is taken by its own.  The builtin [ConnectionError] has the
    same name and is no [DatabaseError]: no entry matches and it
    propagates. *)
Example same_name_other_class :
  type___name__ Examples.ConnectionError = type___name__ Py.ConnectionError ∧
  isinstance (new_exn Examples.ConnectionError "refused")
    Examples.DatabaseError = true ∧
  isinstance (new_exn Py.ConnectionError "refused")
    Examples.ConnectionError = false ∧
  call (decorator Examples.database_handlers Examples.database_handlers.*1
          (Examples.connect false)) [] [] Examples.w0 =
    (Return (VDict [(VStr "status", VStr "error");
                    (VStr "message", VStr "refused");
                    (VStr "rolled_back", VStr "true")]),
     World [] {[ "db.rolled_back" := VBool true ]}) ∧
  call (decorator Examples.database_handlers Examples.database_handlers.*1
          (Examples.connect true)) [] [] Examples.w0 =
    (Raise (new_exn Py.ConnectionError "refused"), Examples.w0).
Proof. repeat split; reflexivity. Qed.




End ErrorDispatch.

(** ** The Type Contract Validator *)

Module TypeContract.
Import Py Validation Decorators.

Section rendering.
Context (py_repr : pyval → string) (hint_str : TypeDescriptor → string).

(** A bound argument offends when it is not called [self] or [cls], a type
    is declared for it and its value does not validate against that type. *)
Definition offends (hints : gmap string TypeDescriptor)
    (item : string * pyval) : option (string * TypeDescriptor * pyval) :=
  if bool_decide (item.1 ∈ _SKIP_PARAMS) then None
  else
    match hints !! item.1 with
    | Some hint =>
        if validate_python hint item.2 then None
        else Some (item.1, hint, item.2)
    | None => None
    end.

Definition offending (hints : gmap string TypeDescriptor) (bound : arguments)
    : list (string * TypeDescriptor * pyval) :=
  omap (offends hints) bound.

Definition error_line (o : string * TypeDescriptor * pyval) : string :=
  input_error_line py_repr hint_str o.1.1 o.1.2 o.2.

Definition input_error (func : pyfunc) (lines : list string) : exn :=
  new_exn InputValidationError
    ("Input validation failed for '" +:+ __qualname__ func +:+ "':" +:+
     newline +:+ String.concat newline lines).

Definition binding_error (func : pyfunc) (msg : string) : exn :=
  new_exn_from InputValidationError
    ("Argument binding failed for '" +:+ __qualname__ func +:+ "': " +:+ msg)
    (new_exn TypeError msg).

(** The loop collects one line per offending argument, in binding order. *)
Lemma collect_errors_offending hints items errors :
  collect_errors py_repr hint_str hints items errors =
    errors ++ (error_line <$> offending hints items).
Proof.
  revert errors. induction items as [|[name value] items IH]; intros errors.
  { by rewrite app_nil_r. }
  simpl. unfold offending, offends in *. simpl.
  destruct (bool_decide (name ∈ _SKIP_PARAMS)); [apply IH|].
  destruct (hints !! name) as [hint|]; [|apply IH].
  destruct (validate_python hint value); [apply IH|].
  rewrite IH. simpl. by rewrite <-app_assoc.
Qed.

Lemma validate_inputs_offending func hints args kwargs bound :
  signature_bind (signature func) args kwargs = inr bound →
  offending hints (apply_defaults (signature func) bound) ≠ [] →
  validate_inputs py_repr hint_str func hints args kwargs =
    Raise (input_error func
      (error_line <$> offending hints (apply_defaults (signature func) bound))).
Proof.
  intros Hbind Hbad. unfold validate_inputs. rewrite Hbind.
  rewrite collect_errors_offending. simpl.
  destruct (offending _ _) as [|o os]; [done|]. done.
Qed.

Lemma validate_inputs_unbound func hints args kwargs msg :
  signature_bind (signature func) args kwargs = inl msg →
  validate_inputs py_repr hint_str func hints args kwargs =
    Raise (binding_error func msg).
Proof. intros Hbind. unfold validate_inputs. by rewrite Hbind. Qed.

(** What [spec] returns when the decoration-time checks pass. *)
Lemma spec_wrapped vi vo rd fn wrapped :
  spec py_repr hint_str vi vo rd fn = Return wrapped →
  call wrapped = spec_wrapper py_repr hint_str vi vo fn (get_type_hints fn).
Proof.
  unfold spec, validate_type_hints.
  destruct (if rd then _ else _); [|done].
  destruct (if bool_decide _ then _ else _); [|done].
  by intros [= <-].
Qed.

(** A failed input check ends the call before [fn] is called. *)
Lemma spec_wrapper_input_failure vo fn hints args kwargs e w :
  validate_inputs py_repr hint_str fn hints args kwargs = Raise e →
  spec_wrapper py_repr hint_str true vo fn hints args kwargs w = (Raise e, w).
Proof.
  intros Hin. unfold spec_wrapper, check_inputs, bind, lift. by rewrite Hin.
Qed.

Lemma offends_mismatch hints name hint value :
  name ∉ _SKIP_PARAMS →
  hints !! name = Some hint →
  validate_python hint value = false →
  offends hints (name, value) = Some (name, hint, value).
Proof.
  intros Hskip Hhint Hval. unfold offends. simpl.
  rewrite bool_decide_eq_false_2 by done. by rewrite Hhint, Hval.
Qed.

(** C4, as the code has it.  With input validation on, a call that binds a
    boolean to a parameter declared [int] fails with an input contract
    violation whose message has the line of that parameter, and the
    underlying callable is not called (whatever [call fn] would do, the world
    is left as it was), provided the parameter is not named [self] or
    [cls]: arguments under these two names are never validated. *)
Theorem bool_rejected_for_int vo rd fn wrapped args kwargs bound name b w :
  spec py_repr hint_str true vo rd fn = Return wrapped →
  signature_bind (signature fn) args kwargs = inr bound →
  (name, VBool b) ∈ apply_defaults (signature fn) bound →
  get_type_hints fn !! name = Some (Primitive KInt) →
  name ∉ _SKIP_PARAMS →
  validate_python (Primitive KInt) (VBool b) = false ∧
  ∃ lines,
    input_error_line py_repr hint_str name (Primitive KInt) (VBool b) ∈ lines ∧
    call wrapped args kwargs w = (Raise (input_error fn lines), w).
Proof.
  intros Hspec Hbind Hin Hhint Hskip. split; [done|].
  set (bad := offending (get_type_hints fn)
                (apply_defaults (signature fn) bound)).
  assert (Hbad : (name, Primitive KInt, VBool b) ∈ bad).
  { apply list_elem_of_omap. exists (name, VBool b). split; [done|].
    by apply offends_mismatch. }
  exists (error_line <$> bad). split.
  - change (input_error_line _ _ _ _ _)
      with (error_line (name, Primitive KInt, VBool b)).
    by apply list_elem_of_fmap_2.
  - rewrite (spec_wrapped _ _ _ _ _ Hspec).
    apply spec_wrapper_input_failure, validate_inputs_offending; [done|].
    intros Hnil. fold bad in Hnil. rewrite Hnil in Hbad. by apply not_elem_of_nil in Hbad.
Qed.

(** C5, as the code has it.  With input validation on, a call whose bound
    arguments include at least one offending argument fails with a single
    input contract violation; its message has one line per offending
    argument, in binding order, each naming the parameter, the declared type
    and the actual type and value; the underlying callable is not called.
    Arguments named [self] or [cls] never offend. *)
Theorem input_violation_names_every_offender vo rd fn wrapped args kwargs
    bound w :
  spec py_repr hint_str true vo rd fn = Return wrapped →
  signature_bind (signature fn) args kwargs = inr bound →
  offending (get_type_hints fn) (apply_defaults (signature fn) bound) ≠ [] →
  call wrapped args kwargs w =
    (Raise (input_error fn
       (error_line <$>
        offending (get_type_hints fn) (apply_defaults (signature fn) bound))),
     w).
Proof.
  intros Hspec Hbind Hbad. rewrite (spec_wrapped _ _ _ _ _ Hspec).
  by apply spec_wrapper_input_failure, validate_inputs_offending.
Qed.

(** C9, as the code has it.  With input validation on, a call whose
    arguments cannot be bound to the parameter list fails with an input
    contract violation whose message and [__cause__] carry the binding
    error, and the underlying callable is not called. *)
Theorem unbindable_call_is_input_violation vo rd fn wrapped args kwargs msg w :
  spec py_repr hint_str true vo rd fn = Return wrapped →
  signature_bind (signature fn) args kwargs = inl msg →
  call wrapped args kwargs w = (Raise (binding_error fn msg), w) ∧
  exc_cause (binding_error fn msg) = Some (new_exn TypeError msg) ∧
  isinstance (binding_error fn msg) InputValidationError = true.
Proof.
  intros Hspec Hbind. rewrite (spec_wrapped _ _ _ _ _ Hspec).
  split; [|done].
  by apply spec_wrapper_input_failure, validate_inputs_unbound.
Qed.

End rendering.


(** [double(True)]: the boolean is refused for [x: int]. *)
Lemma bool_rejected_for_int_witness :
  ∃ wrapped,
    spec Examples.repr Examples.hint_str true true true Examples.double
      = Return wrapped ∧
    ∃ lines,
      "  - Parameter 'x': expected <class 'int'>, got bool (True)" ∈ lines ∧
      call wrapped [VBool true] [] Examples.w0 =
        (Raise (input_error Examples.double lines), Examples.w0).
Proof.
  eexists. split; [reflexivity|].
  refine (proj2 (bool_rejected_for_int Examples.repr Examples.hint_str true
    true Examples.double _ [VBool true] [] [("x", VBool true)] "x" true
    Examples.w0 _ _ _ _ _)).
  - reflexivity.
  - reflexivity.
  - simpl. left.
  - reflexivity.
  - compute_done.
Defined.

(** [scale(True)], where the parameter declared [int] is called [self]: the
    boolean is accepted and the body runs. *)
Lemma bool_accepted_for_int_named_self :
  ∃ wrapped,
    spec Examples.repr Examples.hint_str true true true Examples.scale
      = Return wrapped ∧
    signature_bind (signature Examples.scale) [VBool true] []
      = inr [("self", VBool true)] ∧
    get_type_hints Examples.scale !! "self" = Some (Primitive KInt) ∧
    call wrapped [VBool true] [] Examples.w0 = (Return (VInt 1), Examples.w0).
Proof.
  eexists. split; [reflexivity|]. split; [reflexivity|].
  split; reflexivity.
Qed.

(** [func("bad", 123)]: both parameters are reported, in order. *)
Lemma input_violation_names_every_offender_witness :
  ∃ wrapped,
    spec Examples.repr Examples.hint_str true true true Examples.func
      = Return wrapped ∧
    call wrapped [VStr "bad"; VInt 123] [] Examples.w0 =
      (Raise (input_error Examples.func
         ["  - Parameter 'x': expected <class 'int'>, got str ('bad')";
          "  - Parameter 'y': expected <class 'str'>, got int (123)"]),
       Examples.w0).
Proof.
  eexists. split; [reflexivity|].
  refine (input_violation_names_every_offender Examples.repr
    Examples.hint_str true true Examples.func _ [VStr "bad"; VInt 123] []
    [("x", VStr "bad"); ("y", VInt 123)] Examples.w0 _ _ _).
  - reflexivity.
  - reflexivity.
  - compute_done.
Defined.

(** [scale("bad")]: the only mismatched argument is called [self]; the call
    does not fail and the body runs. *)
Lemma mismatch_under_self_not_reported :
  ∃ wrapped,
    spec Examples.repr Examples.hint_str true true true Examples.scale
      = Return wrapped ∧
    signature_bind (signature Examples.scale) [VStr "bad"] []
      = inr [("self", VStr "bad")] ∧
    get_type_hints Examples.scale !! "self" = Some (Primitive KInt) ∧
    validate_python (Primitive KInt) (VStr "bad") = false ∧
    call wrapped [VStr "bad"] [] Examples.w0 = (Return (VInt 1), Examples.w0).
Proof.
  eexists. split; [reflexivity|]. split; [reflexivity|].
  split; [reflexivity|]. split; reflexivity.
Qed.

(** [double(1, 2, 3)] under [spec] with input validation on. *)
Lemma unbindable_call_is_input_violation_witness :
  ∃ wrapped,
    spec Examples.repr Examples.hint_str true true true Examples.double
      = Return wrapped ∧
    call wrapped [VInt 1; VInt 2; VInt 3] [] Examples.w0 =
      (Raise (Exn InputValidationError
                "Argument binding failed for 'double': too many positional arguments"
                []
                (Some (Exn TypeError "too many positional arguments" [] None))),
       Examples.w0).
Proof.
  eexists. split; [reflexivity|].
  refine (proj1 (unbindable_call_is_input_violation Examples.repr
    Examples.hint_str true true Examples.double _ [VInt 1; VInt 2; VInt 3] []
    "too many positional arguments" Examples.w0 _ _)).
  - reflexivity.
  - reflexivity.
Defined.

(** [double(1, 2, 3)] under [spec(validate_inputs=False)]: the wrapper does
    not bind the arguments; the call of [double] itself raises [TypeError],
    which is not an input contract violation. *)
Lemma unbindable_call_without_input_validation :
  ∃ wrapped e,
    spec Examples.repr Examples.hint_str false true true Examples.double
      = Return wrapped ∧
    signature_bind (signature Examples.double) [VInt 1; VInt 2; VInt 3] []
      = inl "too many positional arguments" ∧
    call wrapped [VInt 1; VInt 2; VInt 3] [] Examples.w0
      = (Raise e, Examples.w0) ∧
    exc_type e = TypeError ∧
    isinstance e InputValidationError = false.
Proof.
  eexists. eexists. split; [reflexivity|]. split; [reflexivity|].
  split; [reflexivity|]. split; reflexivity.
Qed.

End TypeContract.

(** ** The State Transition Engine: guarded calls *)

Module Transitions.
Import Py StateMachine.

(** A computation leaves the engine's fields alone when it assigns neither
    [self._state] nor [self._state_history] and does not change the list the
    latter refers to.  This is what the engine asks of method bodies and
    hooks: the state of an instance changes through transitions only. *)
Definition preserves_engine {A} (m : exec store A) : Prop :=
  ∀ w, state (m w).2 = state w
       ∧ _state_history (self (m w).2) = _state_history (self w)
       ∧ heap (m w).2 !! _state_history (self w)
         = heap w !! _state_history (self w).

Definition hooks_preserve_engine (cls : class_view) : Prop :=
  ∀ name hook,
    view_getattr cls name = Some (Callable hook) → preserves_engine hook.

Lemma preserves_engine_history {A} (m : exec store A) w :
  preserves_engine m → history (m w).2 = history w.
Proof.
  intros Hm. destruct (Hm w) as (_ & Hloc & Hheap).
  unfold history. by rewrite Hloc, Hheap.
Qed.

Lemma call_hook_preserves cls name :
  hooks_preserve_engine cls → preserves_engine (call_hook cls name).
Proof.
  intros Hcls w. unfold call_hook.
  destruct (view_getattr cls name) as [[hook|v]|] eqn:Hget; [|done..].
  specialize (Hcls _ _ Hget w). unfold bind, pure.
  by destruct (hook w) as [[r|e] w'].
Qed.

(** The guard fails: the wrapper raises at once. *)
Lemma wrapper_guard_fails cls meta method args kwargs w :
  state w ∉ from_states meta →
  transition_wrapper cls meta method args kwargs w =
    (Raise (transition_error meta method (state w)), w).
Proof.
  intros Hguard. unfold transition_wrapper, bind, get_state, throw. simpl.
  fold (state w). by rewrite bool_decide_eq_false_2.
Qed.

(** The guard passes and the body raises. *)
Lemma wrapper_body_raises cls meta method args kwargs w e w1 :
  state w ∈ from_states meta →
  m_call method args kwargs w = (Raise e, w1) →
  transition_wrapper cls meta method args kwargs w = (Raise e, w1).
Proof.
  intros Hguard Hbody. unfold transition_wrapper, bind, get_state. simpl.
  fold (state w). rewrite bool_decide_eq_true_2 by done. simpl.
  by rewrite Hbody.
Qed.

(** The store once the new state is assigned and recorded. *)
Definition commit (cls : class_view) (meta : TransitionMeta) (w : store)
    : store :=
  let w' := Store (Instance (to_state meta) (_state_history (self w))
                            (__dict__ (self w))) (heap w) in
  if view_track_history cls
  then Store (self w')
             (alter (λ l, l ++ [to_state meta]) (_state_history (self w'))
                    (heap w'))
  else w'.

(** The guard passes and the body returns: exit hook, assignment, history,
    enter hook. *)
Lemma wrapper_body_returns cls meta method args kwargs w v w1 :
  state w ∈ from_states meta →
  m_call method args kwargs w = (Return v, w1) →
  transition_wrapper cls meta method args kwargs w =
    match call_hook cls ("on_exit_" +:+ state w1) w1 with
    | (Raise e, w2) => (Raise e, w2)
    | (Return _, w2) =>
        match call_hook cls ("on_enter_" +:+ to_state meta)
                (commit cls meta w2) with
        | (Raise e, w3) => (Raise e, w3)
        | (Return _, w3) => (Return v, w3)
        end
    end.
Proof.
  intros Hguard Hbody. unfold transition_wrapper, bind, get_state. simpl.
  fold (state w). rewrite bool_decide_eq_true_2 by done. simpl.
  rewrite Hbody. fold (state w1).
  destruct (call_hook cls _ w1) as [[[]|e] w2]; [|done].
  unfold commit, set_state, history_append, pure. simpl.
  by destruct (view_track_history cls).
Qed.






(** C2. When the guard passes and the guarded body raises [e], the call
    raises [e] itself and leaves the store exactly as the body left it: the
    wrapper assigns nothing, appends nothing and runs no hook.  For a body
    that leaves the engine's fields alone (it writes neither [_state] nor
    the history and runs no other guarded operation), the state of the
    instance and its history after the call are therefore those before the
    call, with history tracking on or off.  Without that condition on the
    body the state can differ: what the body did before it raised is not
    rolled back. *)
Theorem body_failure_commits_nothing cls meta method args kwargs w e w1 :
  state w ∈ from_states meta →
  m_call method args kwargs w = (Raise e, w1) →
  transition_wrapper cls meta method args kwargs w = (Raise e, w1) ∧
  (preserves_engine (m_call method args kwargs) →
   state (transition_wrapper cls meta method args kwargs w).2 = state w ∧
   history (transition_wrapper cls meta method args kwargs w).2 = history w).
Proof.
  intros Hguard Hbody.
  rewrite (wrapper_body_raises _ _ _ _ _ _ _ _ Hguard Hbody).
  split; [done|]. intros Hframe. simpl.
  pose proof (preserves_engine_history _ w Hframe) as Hhist.
  destruct (Hframe w) as (Hstate & _). rewrite Hbody in *. done.
Qed.


(** Whether a guarded call carries the transition out: the guard passes, the
    body returns and the exit hook, if there is one, returns.  The assignment
    of the new state is reached in exactly this case. *)
Definition commits (cls : class_view) (meta : TransitionMeta)
    (method : pymethod) (args : list pyval) (kwargs : arguments) (w : store)
    : bool :=
  bool_decide (state w ∈ from_states meta) &&
  match m_call method args kwargs w with
  | (Return _, w1) =>
      match call_hook cls ("on_exit_" +:+ state w1) w1 with
      | (Return _, _) => true
      | (Raise _, _) => false
      end
  | (Raise _, _) => false
  end.

(** The history list of the instance is allocated. *)
Definition history_allocated (w : store) : Prop :=
  is_Some (heap w !! _state_history (self w)).

Lemma preserves_engine_allocated {A} (m : exec store A) w :
  preserves_engine m → history_allocated w → history_allocated (m w).2.
Proof.
  intros Hm Hw. destruct (Hm w) as (_ & Hloc & Hheap).
  unfold history_allocated. by rewrite Hloc, Hheap.
Qed.

Lemma init_history cls h :
  view_track_history cls = true →
  state (__init__ cls h) = view_initial_state cls ∧
  history (__init__ cls h) = [view_initial_state cls] ∧
  history_allocated (__init__ cls h).
Proof.
  intros Htrack. unfold history, history_allocated, __init__. simpl.
  rewrite Htrack, lookup_insert_eq. eauto.
Qed.

Lemma commit_state cls meta w : state (commit cls meta w) = to_state meta.
Proof. unfold commit. by destruct (view_track_history cls). Qed.

Lemma commit_history cls meta w :
  view_track_history cls = true →
  history_allocated w →
  history (commit cls meta w) = history w ++ [to_state meta] ∧
  history_allocated (commit cls meta w).
Proof.
  intros Htrack [l Hl]. unfold commit, history, history_allocated.
  rewrite Htrack. simpl. rewrite lookup_alter_eq, Hl. simpl. eauto.
Qed.

(** What a guarded call does to the history, with tracking on. *)
Lemma wrapper_history cls meta method args kwargs w :
  view_track_history cls = true →
  preserves_engine (m_call method args kwargs) →
  hooks_preserve_engine cls →
  history_allocated w →
  let r := transition_wrapper cls meta method args kwargs w in
  (if commits cls meta method args kwargs w
   then history r.2 = history w ++ [to_state meta] ∧ state r.2 = to_state meta
   else history r.2 = history w ∧ state r.2 = state w)
  ∧ (∀ v, r.1 = Return v → commits cls meta method args kwargs w = true)
  ∧ history_allocated r.2.
Proof.
  intros Htrack Hbody Hhooks Halloc r. subst r. unfold commits.
  destruct (decide (state w ∈ from_states meta)) as [Hguard|Hguard].
  2:{ rewrite wrapper_guard_fails, bool_decide_eq_false_2 by done. simpl.
      split; [done|]. split; [done|]. done. }
  rewrite bool_decide_eq_true_2 by done. simpl.
  pose proof (preserves_engine_history _ w Hbody) as Hh1.
  pose proof (preserves_engine_allocated _ w Hbody Halloc) as Ha1.
  destruct (Hbody w) as (Hs1 & _).
  destruct (m_call method args kwargs w) as [[v|e] w1] eqn:Hcall.
  2:{ rewrite (wrapper_body_raises _ _ _ _ _ _ _ _ Hguard Hcall). simpl in *.
      split; [done|]. split; [done|]. done. }
  rewrite (wrapper_body_returns _ _ _ _ _ _ _ _ Hguard Hcall). simpl in *.
  pose proof (call_hook_preserves cls ("on_exit_" +:+ state w1) Hhooks) as Hexit.
  pose proof (preserves_engine_history _ w1 Hexit) as Hh2.
  pose proof (preserves_engine_allocated _ w1 Hexit Ha1) as Ha2.
  destruct (Hexit w1) as (Hs2 & _).
  destruct (call_hook cls ("on_exit_" +:+ state w1) w1) as [[[]|e] w2].
  2:{ simpl in *. split; [split; congruence|]. split; [done|]. done. }
  simpl in *.
  pose proof (call_hook_preserves cls ("on_enter_" +:+ to_state meta) Hhooks)
    as Henter.
  destruct (commit_history cls meta w2 Htrack Ha2) as [Hh3 Ha3].
  pose proof (preserves_engine_history _ (commit cls meta w2) Henter) as Hh4.
  pose proof (preserves_engine_allocated _ (commit cls meta w2) Henter Ha3)
    as Ha4.
  destruct (Henter (commit cls meta w2)) as (Hs4 & _).
  rewrite commit_state in Hs4.
  destruct (call_hook cls ("on_enter_" +:+ to_state meta) (commit cls meta w2))
    as [[[]|e] w4]; simpl in *.
  - split; [split; congruence|]. split; [done|]. done.
  - split; [split; congruence|]. split; [done|]. done.
Qed.

(** A snapshot of the history is a list object of its own. *)
Lemma snapshot_fresh w :
  history_allocated w →
  ∃ l w1,
    state_history w = (Return l, w1) ∧
    (l ∉ dom (heap w)) ∧
    l ≠ _state_history (self w) ∧
    heap w1 !! l = Some (history w) ∧
    self w1 = self w ∧
    heap w1 !! _state_history (self w) = heap w !! _state_history (self w).
Proof.
  intros Halloc. unfold state_history.
  set (l := fresh (dom (heap w))).
  assert (Hfresh : l ∉ dom (heap w)) by apply is_fresh.
  assert (Hne : l ≠ _state_history (self w)).
  { intros Heq. apply Hfresh. rewrite Heq. by apply elem_of_dom. }
  eexists l, _. split; [done|]. split; [done|]. split; [done|]. simpl.
  rewrite lookup_insert_eq, lookup_insert_ne by done. done.
Qed.

Lemma snapshot_independent w f :
  history_allocated w →
  ∃ l w1,
    state_history w = (Return l, w1) ∧
    heap w1 !! l = Some (history w) ∧
    l ≠ _state_history (self w) ∧
    let w2 := (list_mutate l f w1).2 in
    heap w2 !! l = Some (f (history w)) ∧
    history w2 = history w ∧
    state w2 = state w ∧
    ∃ l' w3,
      state_history w2 = (Return l', w3) ∧
      l' ≠ l ∧
      heap w3 !! l' = Some (history w) ∧
      history w3 = history w.
Proof.
  intros Halloc.
  destruct (snapshot_fresh w Halloc)
    as (l & w1 & Hsnap & _ & Hne & Hl & Hself & Hh).
  exists l, w1. split; [done|]. split; [done|]. split; [done|]. simpl.
  set (w2 := Store (self w1) (alter f l (heap w1))).
  assert (Hhist2 : history w2 = history w).
  { unfold history, w2. simpl. rewrite Hself, lookup_alter_ne, Hh; done. }
  assert (Halloc2 : history_allocated w2).
  { unfold history_allocated, w2. simpl.
    rewrite Hself, lookup_alter_ne, Hh; done. }
  split. { unfold w2. simpl. by rewrite lookup_alter_eq, Hl. }
  split; [done|]. split. { unfold state, w2. simpl. by rewrite Hself. }
  destruct (snapshot_fresh w2 Halloc2)
    as (l' & w3 & Hsnap' & Hfresh' & Hne' & Hl' & Hself' & Hh').
  exists l', w3. split; [done|]. split.
  - intros ->. apply Hfresh', elem_of_dom.
    unfold w2. simpl. rewrite lookup_alter_eq, Hl. eauto.
  - split; [by rewrite Hl', Hhist2|].
    unfold history. rewrite Hself', Hh'. apply Hhist2.
Qed.

(** C7. With history tracking on: a new instance has the history
    [[initial]]; a guarded call appends the target state, once, when it
    carries the transition out (the state is then the target), and leaves
    history and state as they were otherwise (body and hooks leaving the
    engine's fields alone); a call that returns has carried the transition
    out.  The [state_history] accessor hands out a
    new list object each time: changing it in place changes neither the
    stored history nor what the accessor returns later. *)
Theorem history_tracks_transitions cls :
  view_track_history cls = true →
  (∀ h, history (__init__ cls h) = [view_initial_state cls] ∧
        history_allocated (__init__ cls h))
  ∧ (∀ meta method args kwargs w,
       preserves_engine (m_call method args kwargs) →
       hooks_preserve_engine cls →
       history_allocated w →
       let r := transition_wrapper cls meta method args kwargs w in
       (if commits cls meta method args kwargs w
        then history r.2 = history w ++ [to_state meta]
             ∧ state r.2 = to_state meta
        else history r.2 = history w ∧ state r.2 = state w)
       ∧ (∀ v, r.1 = Return v → commits cls meta method args kwargs w = true)
       ∧ history_allocated r.2)
  ∧ (∀ w f,
       history_allocated w →
       ∃ l w1,
         state_history w = (Return l, w1) ∧
         heap w1 !! l = Some (history w) ∧
         l ≠ _state_history (self w) ∧
         let w2 := (list_mutate l f w1).2 in
         heap w2 !! l = Some (f (history w)) ∧
         history w2 = history w ∧
         state w2 = state w ∧
         ∃ l' w3,
           state_history w2 = (Return l', w3) ∧
           l' ≠ l ∧
           heap w3 !! l' = Some (history w) ∧
           history w3 = history w).
Proof.
  intros Htrack. split; [|split].
  - intros h. by destruct (init_history cls h Htrack) as (_ & ? & ?).
  - intros meta method args kwargs w Hbody Hhooks Halloc.
    by apply wrapper_history.
  - intros w f. apply snapshot_independent.
Qed.

(** The end-to-end scenario: construct, [pay], [ship], and [ship] again. *)
Example order_scenario :
  let w0 := __init__ Machines.Order ∅ in
  let r1 := transition_wrapper Machines.Order Machines.pay_meta Machines.pay
              [] [] w0 in
  let r2 := transition_wrapper Machines.Order Machines.ship_meta Machines.ship
              [] [] r1.2 in
  let r3 := transition_wrapper Machines.Order Machines.ship_meta Machines.ship
              [] [] r2.2 in
  (state w0, history w0) = ("pending", ["pending"]) ∧
  (state r1.2, history r1.2) = ("paid", ["pending"; "paid"]) ∧
  (state r2.2, history r2.2) = ("shipped", ["pending"; "paid"; "shipped"]) ∧
  r3 = (Raise (new_exn InvalidTransitionError
          "Cannot transition from 'shipped' to 'shipped' via 'ship'. Valid source state(s): paid"),
        r2.2).
Proof. vm_compute. auto. Qed.

(** A failing enter hook runs after the assignment: the call raises, the
    state is the target and the history has grown.  A failing exit hook runs
    before it: state and history are untouched. *)
Example hook_failures :
  let r1 := transition_wrapper Machines.EnterFails Machines.step_meta
              Machines.step [] [] (__init__ Machines.EnterFails ∅) in
  let r2 := transition_wrapper Machines.ExitFails Machines.step_meta
              Machines.step [] [] (__init__ Machines.ExitFails ∅) in
  (r1.1, state r1.2, history r1.2)
    = (Raise (new_exn ValueError "enter"), "b", ["a"; "b"]) ∧
  (r2.1, state r2.2, history r2.2)
    = (Raise (new_exn ValueError "exit"), "a", ["a"]).
Proof. vm_compute. auto. Qed.

(** [go] raises [RuntimeError("failed")] on a new [Machine]: the state
    stays [a]. *)
Lemma body_failure_commits_nothing_witness :
  state (__init__ Machines.Machine ∅) = "a" ∧
  transition_wrapper Machines.Machine Machines.go_meta Machines.go [] []
      (__init__ Machines.Machine ∅)
    = (Raise (new_exn RuntimeError "failed"), __init__ Machines.Machine ∅) ∧
  state (transition_wrapper Machines.Machine Machines.go_meta Machines.go
           [] [] (__init__ Machines.Machine ∅)).2
    = state (__init__ Machines.Machine ∅).
Proof.
  split; [reflexivity|].
  assert (Hguard : state (__init__ Machines.Machine ∅)
                   ∈ from_states Machines.go_meta) by compute_done.
  destruct (body_failure_commits_nothing Machines.Machine
    Machines.go_meta Machines.go [] [] (__init__ Machines.Machine ∅)
    (new_exn RuntimeError "failed") (__init__ Machines.Machine ∅) Hguard
    eq_refl) as [Hraise Hframe].
  split; [exact Hraise|].
  apply Hframe. intros w. done.
Defined.

(** The body of [leap] carries out [advance] and then raises: the call
    raises the exception of the body, and the instance is left in state [b]
    with [b] in its history, not in the state it had before the call. *)
Lemma body_failure_keeps_inner_transition :
  state (__init__ Machines.Tracked ∅) = "a" ∧
  history (__init__ Machines.Tracked ∅) = ["a"] ∧
  state (__init__ Machines.Tracked ∅) ∈ from_states Machines.leap_meta ∧
  (transition_wrapper Machines.Tracked Machines.leap_meta Machines.leap [] []
     (__init__ Machines.Tracked ∅)).1
    = Raise (new_exn RuntimeError "failed") ∧
  state (transition_wrapper Machines.Tracked Machines.leap_meta
           Machines.leap [] [] (__init__ Machines.Tracked ∅)).2 = "b" ∧
  history (transition_wrapper Machines.Tracked Machines.leap_meta
             Machines.leap [] [] (__init__ Machines.Tracked ∅)).2
    = ["a"; "b"].
Proof.
  split; [reflexivity|]. split; [reflexivity|]. split; [compute_done|].
  split; [reflexivity|]. split; reflexivity.
Qed.


(** [pay] on a new [Order]: the history goes from [[pending]] to
    [[pending, paid]]. *)
Lemma history_tracks_transitions_witness :
  history (__init__ Machines.Order ∅) = ["pending"] ∧
  history (transition_wrapper Machines.Order Machines.pay_meta Machines.pay
             [] [] (__init__ Machines.Order ∅)).2
    = ["pending"] ++ ["paid"].
Proof.
  destruct (history_tracks_transitions Machines.Order eq_refl)
    as (Hinit & Hstep & _).
  split; [apply Hinit|].
  refine (proj1 (proj1 (Hstep Machines.pay_meta Machines.pay [] []
                          (__init__ Machines.Order ∅) _ _ _))).
  - intros w. done.
  - intros name hook Hget. discriminate Hget.
  - apply Hinit.
Defined.

End Transitions.

(** ** The State Transition Engine: class definitions *)

Module ClassDefinition.
Import Py StateMachine.

Lemma dict_get_Some_fst {A} name (d : list (string * A)) a :
  dict_get name d = Some a → name ∈ d.*1.
Proof.
  induction d as [|[k v] d IH]; simpl; [done|].
  destruct (decide (name = k)) as [->|]; [left|right; auto].
Qed.

Lemma cls_getattr_names cls name a :
  cls_getattr cls name = Some a → name ∈ cls_names cls.
Proof.
  induction cls as [|body base IH]; intros Hget.
  - exact (dict_get_Some_fst _ _ _ Hget).
  - cbn [cls_getattr cls_names] in *. apply elem_of_app.
    destruct (dict_get name (namespace body)) eqn:Hown.
    + left. by eapply dict_get_Some_fst.
    + right. auto.
Qed.

(** Every attribute the class has, its own or inherited, is visited. *)
Lemma cls_getattr_dir cls name a :
  cls_getattr cls name = Some a → name ∈ dir cls.
Proof.
  intros Hget. unfold dir. rewrite merge_sort_Permutation.
  by apply elem_of_remove_dups, cls_getattr_names with a.
Qed.

Section rendering.
Context (py_repr : pyval → string).

(** A transition refers to a name outside the state set. *)
Definition refers_outside (meta : TransitionMeta) (state_set : gset string)
    : Prop :=
  from_states meta ∖ state_set ≠ ∅ ∨ to_state meta ∉ state_set.

Lemma check_transitions_rejects cls state_set names name meta :
  name ∈ names →
  cls_getattr cls name = Some (Transition meta) →
  refers_outside meta state_set →
  ∃ msg, check_transitions py_repr cls state_set names
         = Raise (new_exn InvalidStateError msg).
Proof.
  intros Hin Hget Hbad.
  induction names as [|attr_name names IH]; [by apply elem_of_nil in Hin|].
  simpl. destruct (cls_getattr cls attr_name) as [[meta'|]|] eqn:Hattr.
  - destruct (bool_decide (from_states meta' ∖ state_set = ∅)) eqn:Hfrom;
      simpl; [|eauto].
    destruct (bool_decide (to_state meta' ∈ state_set)) eqn:Hto;
      simpl; [|eauto].
    apply elem_of_cons in Hin as [<-|Hin]; [|auto].
    rewrite Hget in Hattr. injection Hattr as <-.
    apply bool_decide_eq_true in Hfrom, Hto. by destruct Hbad.
  - apply elem_of_cons in Hin as [<-|Hin]; [congruence|auto].
  - apply elem_of_cons in Hin as [<-|Hin]; [congruence|auto].
Qed.

Lemma init_subclass_validates cls sts :
  cls_states cls = Some sts →
  __init_subclass__ py_repr cls = _validate_state_machine_class py_repr cls.
Proof.
  intros Hsts. unfold __init_subclass__.
  rewrite bool_decide_eq_true_2; [done|]. rewrite Hsts. eauto.
Qed.

Lemma invalid_class_rejected cls sts :
  cls_states cls = Some sts →
  (sts = []
   ∨ (∀ i, cls_initial_state cls = Some i → i ∉ sts)
   ∨ (∃ name meta s,
        cls_getattr cls name = Some (Transition meta) ∧
        (s ∈ from_states meta ∨ s = to_state meta) ∧ s ∉ sts)) →
  ∃ msg, _validate_state_machine_class py_repr cls
         = Raise (new_exn InvalidStateError msg).
Proof.
  intros Hsts Hviolated. unfold _validate_state_machine_class. rewrite Hsts.
  destruct sts as [|s0 sts]; [eauto|].
  destruct Hviolated as [?|[Hinit|(name & meta & s & Hget & Hs & Hout)]];
    [done|..].
  - destruct (cls_initial_state cls) as [i|]; [|eauto].
    rewrite bool_decide_eq_false_2; [simpl; eauto|].
    rewrite elem_of_list_to_set. by apply Hinit.
  - destruct (cls_initial_state cls) as [i|]; [|eauto].
    destruct (bool_decide (i ∈ _)); simpl; [|eauto].
    assert (Hout' : s ∉ (list_to_set (s0 :: sts) : gset string))
      by (by rewrite elem_of_list_to_set).
    apply check_transitions_rejects with name meta; [|done|].
    + by apply cls_getattr_dir with (Transition meta).
    + destruct Hs as [Hs| ->].
      * left. intros Hempty.
        apply (not_elem_of_empty (C:=gset string) s). rewrite <-Hempty.
        apply elem_of_difference. split; [done|]. exact Hout'.
      * right. exact Hout'.
Qed.

(** C8, as the code has it.  A class statement whose class has a [states]
    attribute, its own or inherited, raises [InvalidStateError] while the
    class is being defined when the states are empty, when the initial state is missing or not
    among the states, or when some transition of the class, its own or
    inherited from a base class, has a source state or the target state
    outside the states. *)
Theorem invalid_declaration_fails_at_definition body base sts :
  cls_states (Subclass body base) = Some sts →
  (sts = []
   ∨ (∀ i, cls_initial_state (Subclass body base) = Some i → i ∉ sts)
   ∨ (∃ name meta s,
        cls_getattr (Subclass body base) name = Some (Transition meta) ∧
        (s ∈ from_states meta ∨ s = to_state meta) ∧ s ∉ sts)) →
  ∃ msg, class_statement py_repr body base
         = Raise (new_exn InvalidStateError msg).
Proof.
  intros Hsts Hviolated. unfold class_statement.
  rewrite (init_subclass_validates _ _ Hsts).
  destruct (invalid_class_rejected _ _ Hsts Hviolated) as [msg ->]. eauto.
Qed.

(** C10. A class statement whose class has no [states] attribute, neither
    its own nor inherited, defines the class without any check: no error is
    raised, whatever the initial state and the transitions are. *)
Theorem class_without_states_not_validated body base :
  cls_states (Subclass body base) = None →
  class_statement py_repr body base = Return (Subclass body base).
Proof.
  intros Hnone. unfold class_statement, __init_subclass__.
  rewrite Hnone. rewrite bool_decide_eq_false_2; [done|].
  by intros [? ?].
Qed.

End rendering.

(** [Base] is accepted; [Narrow], which keeps only the state [a], is
    refused for the [go_b] it inherits from [Base]. *)
Lemma invalid_declaration_fails_at_definition_witness :
  class_statement Examples.repr Machines.Base StateMachine
    = Return (Subclass Machines.Base StateMachine) ∧
  ∃ msg,
    class_statement Examples.repr Machines.Narrow
        (Subclass Machines.Base StateMachine)
      = Raise (new_exn InvalidStateError msg).
Proof.
  split; [reflexivity|].
  refine (invalid_declaration_fails_at_definition Examples.repr
    Machines.Narrow (Subclass Machines.Base StateMachine) ["a"] _ _).
  - reflexivity.
  - right. right.
    exists "go_b", (transition_meta (One "a") "b"), "b".
    split; [reflexivity|]. split; [by right|]. compute_done.
Defined.

(** [Loose] has a transition between two names that no state set declares,
    and the class statement raises nothing. *)
Lemma transition_outside_states_accepted :
  cls_states (Subclass Machines.Loose StateMachine) = None ∧
  cls_getattr (Subclass Machines.Loose StateMachine) "close"
    = Some (Transition (transition_meta (One "open") "closed")) ∧
  class_statement Examples.repr Machines.Loose StateMachine
    = Return (Subclass Machines.Loose StateMachine).
Proof. split; [reflexivity|]. split; reflexivity. Qed.

(** [Mixin] assigns no [states]: it is defined although its transition
    names states that exist nowhere. *)
Lemma class_without_states_not_validated_witness :
  class_statement Examples.repr Machines.Mixin StateMachine
    = Return (Subclass Machines.Mixin StateMachine).
Proof.
  refine (class_without_states_not_validated Examples.repr Machines.Mixin
    StateMachine _).
  reflexivity.
Defined.

End ClassDefinition.

(** ** The Type Contract Validator: decoration and the rest of a call *)

Module ContractCalls.
Import Py Validation Decorators TypeContract.

(** The names [validate_type_hints] reports: the parameters that need a hint
    and have none, in signature order, then [return] when it has none. *)
Definition needs_hint (hints : gmap string TypeDescriptor) (param : parameter)
    : bool :=
  negb (bool_decide (p_name param ∈ _SKIP_PARAMS))
  && negb (bool_decide (p_kind param = VAR_POSITIONAL)
           || bool_decide (p_kind param = VAR_KEYWORD))
  && bool_decide (hints !! p_name param = None).

Definition missing_names (func : pyfunc) : list string :=
  (p_name <$> List.filter (needs_hint (get_type_hints func)) (signature func))
  ++ (if bool_decide (get_type_hints func !! "return" = None)
      then ["return"] else []).


Definition missing_hints_error (func : pyfunc) (missing : list string) : exn :=
  new_exn MissingTypeHintError
    ("Function '" +:+ __qualname__ func +:+ "' is missing type hints for: " +:+
     String.concat ", " missing +:+ ". " +:+
     "All @spec-decorated functions must have complete type annotations.").

Lemma missing_hints_filter hints params missing :
  missing_hints hints params missing =
    missing ++ (p_name <$> List.filter (needs_hint hints) params).
Proof.
  revert missing. induction params as [|param params IH]; intros missing.
  { by rewrite app_nil_r. }
  cbn [missing_hints List.filter].
  destruct (needs_hint hints param) eqn:Hneeds; unfold needs_hint in Hneeds.
  - apply andb_prop in Hneeds as [[Hskip Hkind]%andb_prop Hnone].
    apply negb_true_iff in Hskip, Hkind. rewrite Hskip, Hkind, Hnone.
    rewrite IH. simpl. by rewrite <-app_assoc.
  - destruct (bool_decide (p_name param ∈ _SKIP_PARAMS)); [apply IH|].
    destruct (bool_decide (p_kind param = VAR_POSITIONAL)
              || bool_decide (p_kind param = VAR_KEYWORD)); [apply IH|].
    destruct (bool_decide (hints !! p_name param = None)); [done|apply IH].
Qed.

Lemma validate_type_hints_missing func :
  validate_type_hints func =
    match missing_names func with
    | [] => Return (get_type_hints func)
    | missing => Raise (missing_hints_error func missing)
    end.
Proof.
  unfold validate_type_hints, missing_names.
  rewrite missing_hints_filter. simpl.
  destruct (bool_decide (get_type_hints func !! "return" = None)).
  - unfold missing_hints_error.
    by destruct (_ ++ ["return"]).
  - unfold missing_hints_error. rewrite app_nil_r.
    by destruct (p_name <$> _).
Qed.

Section rendering.
Context (py_repr : pyval → string) (hint_str : TypeDescriptor → string).

(** The input check lets a call through: the arguments bind and none of the
    bound arguments offends. *)
Definition inputs_accepted (fn : pyfunc) (args : list pyval)
    (kwargs : arguments) : Prop :=
  ∃ bound,
    signature_bind (signature fn) args kwargs = inr bound ∧
    offending (get_type_hints fn) (apply_defaults (signature fn) bound) = [].

Definition output_error (func : pyfunc) (return_type : TypeDescriptor)
    (result : pyval) : exn :=
  new_exn OutputValidationError
    ("Output validation failed for '" +:+ __qualname__ func +:+ "': " +:+
     "expected " +:+ hint_str return_type +:+ ", got " +:+
     type_name result +:+ " (" +:+ py_repr result +:+ ")").

Lemma validate_inputs_accepted fn args kwargs :
  inputs_accepted fn args kwargs →
  validate_inputs py_repr hint_str fn (get_type_hints fn) args kwargs
    = Return ().
Proof.
  intros (bound & Hbind & Hnone). unfold validate_inputs. rewrite Hbind.
  by rewrite (collect_errors_offending py_repr hint_str), Hnone.
Qed.

(** The wrapper once the input check is behind it. *)
Lemma spec_wrapper_after_inputs vi vo fn args kwargs w :
  (vi = true → inputs_accepted fn args kwargs) →
  spec_wrapper py_repr hint_str vi vo fn (get_type_hints fn) args kwargs w =
    match call fn args kwargs w with
    | (Raise e, w1) => (Raise e, w1)
    | (Return result, w1) =>
        if vo then
          match validate_output py_repr hint_str fn (get_type_hints fn) result
          with
          | Raise e => (Raise e, w1)
          | Return _ => (Return result, w1)
          end
        else (Return result, w1)
    end.
Proof.
  intros Hin. unfold spec_wrapper, check_inputs, check_output, bind, lift, pure.
  destruct vi.
  - rewrite (validate_inputs_accepted _ _ _ (Hin eq_refl)).
    destruct (call fn args kwargs w) as [[v|e] w1]; [|done].
    destruct vo; [|done]. by destruct (validate_output _ _ _ _ _).
  - destruct (call fn args kwargs w) as [[v|e] w1]; [|done].
    destruct vo; [|done]. by destruct (validate_output _ _ _ _ _).
Qed.

(** X1. A call whose arguments pass the input check and whose result
    validates against the declared return type returns the result of the
    underlying callable, in the world that callable left. *)
Theorem valid_call_returns_native_result vi vo rd fn wrapped args kwargs w v w1 :
  spec py_repr hint_str vi vo rd fn = Return wrapped →
  (vi = true → inputs_accepted fn args kwargs) →
  call fn args kwargs w = (Return v, w1) →
  (vo = true →
   ∀ t, get_type_hints fn !! "return" = Some t → validate_python t v = true) →
  call wrapped args kwargs w = (Return v, w1).
Proof.
  intros Hspec Hin Hcall Hout. rewrite (spec_wrapped _ _ _ _ _ _ _ Hspec).
  rewrite (spec_wrapper_after_inputs _ _ _ _ _ _ Hin), Hcall.
  destruct vo; [|done]. unfold validate_output.
  destruct (get_type_hints fn !! "return") as [t|] eqn:Ht; [|done].
  by rewrite (Hout eq_refl t eq_refl).
Qed.

(** X2. An exception raised by the underlying callable leaves the wrapper
    as it is: same exception, same world, whether the output is validated
    or not. *)
Theorem body_exception_propagates vi vo rd fn wrapped args kwargs w e w1 :
  spec py_repr hint_str vi vo rd fn = Return wrapped →
  (vi = true → inputs_accepted fn args kwargs) →
  call fn args kwargs w = (Raise e, w1) →
  call wrapped args kwargs w = (Raise e, w1).
Proof.
  intros Hspec Hin Hcall. rewrite (spec_wrapped _ _ _ _ _ _ _ Hspec).
  by rewrite (spec_wrapper_after_inputs _ _ _ _ _ _ Hin), Hcall.
Qed.

(** X3. With output validation on, a result that does not validate against
    the declared return type turns into [OutputValidationError], naming the
    declared and the actual type; the underlying callable has run by then,
    and the world is the one it left. *)
Theorem invalid_result_is_output_violation vi rd fn wrapped args kwargs w v w1
    return_type :
  spec py_repr hint_str vi true rd fn = Return wrapped →
  (vi = true → inputs_accepted fn args kwargs) →
  call fn args kwargs w = (Return v, w1) →
  get_type_hints fn !! "return" = Some return_type →
  validate_python return_type v = false →
  call wrapped args kwargs w = (Raise (output_error fn return_type v), w1).
Proof.
  intros Hspec Hin Hcall Ht Hbad. rewrite (spec_wrapped _ _ _ _ _ _ _ Hspec).
  rewrite (spec_wrapper_after_inputs _ _ _ _ _ _ Hin), Hcall.
  unfold validate_output. by rewrite Ht, Hbad.
Qed.

(** X4. With both validations off the wrapper is the underlying callable:
    every call gives the same outcome and the same world. *)
Theorem unvalidated_wrapper_is_transparent rd fn wrapped :
  spec py_repr hint_str false false rd fn = Return wrapped →
  ∀ args kwargs w, call wrapped args kwargs w = call fn args kwargs w.
Proof.
  intros Hspec args kwargs w. rewrite (spec_wrapped _ _ _ _ _ _ _ Hspec).
  rewrite spec_wrapper_after_inputs by done.
  by destruct (call fn args kwargs w) as [[v|e] w1].
Qed.



(** X7. No partial contract leaves decoration: when [spec] returns a
    wrapper, the docstring is there if it was required, every parameter
    other than [self], [cls] and the variadic ones has a type hint, and so
    has the return value. *)
Theorem decorated_contract_is_complete vi vo rd fn wrapped :
  spec py_repr hint_str vi vo rd fn = Return wrapped →
  (rd = true → ∃ doc, __doc__ fn = Some doc ∧ is_blank doc = false)
  ∧ (∀ param, param ∈ signature fn →
       p_name param ∉ _SKIP_PARAMS →
       p_kind param ≠ VAR_POSITIONAL → p_kind param ≠ VAR_KEYWORD →
       is_Some (get_type_hints fn !! p_name param))
  ∧ is_Some (get_type_hints fn !! "return").
Proof.
  unfold spec. intros Hspec.
  destruct (if rd then validate_docstring fn else Return ()) eqn:Hdoc;
    [|done].
  rewrite validate_type_hints_missing in Hspec.
  destruct (missing_names fn) as [|name names] eqn:Hmissing; [|done].
  apply app_eq_nil in Hmissing as [Hparams Hreturn].
  split; [|split].
  - intros ->. unfold validate_docstring in Hdoc.
    destruct (__doc__ fn) as [doc|]; [|done].
    exists doc. split; [done|]. by destruct (is_blank doc).
  - intros param Hin Hskip Hvp Hvk.
    destruct (get_type_hints fn !! p_name param) eqn:Hhint; [eauto|].
    assert (Hneeds : needs_hint (get_type_hints fn) param = true).
    { unfold needs_hint.
      rewrite (bool_decide_eq_false_2 _ Hskip),
        (bool_decide_eq_false_2 _ Hvp), (bool_decide_eq_false_2 _ Hvk).
      by rewrite bool_decide_eq_true_2. }
    apply fmap_nil_inv in Hparams.
    assert (Hf : In param (List.filter (needs_hint (get_type_hints fn))
                             (signature fn))).
    { apply filter_In. split; [by apply list_elem_of_In|done]. }
    rewrite Hparams in Hf. destruct Hf.
  - destruct (get_type_hints fn !! "return"); [eauto|].
    by rewrite bool_decide_eq_true_2 in Hreturn.
Qed.

End rendering.

(** [double(21)] returns [42]. *)
Lemma valid_call_returns_native_result_witness :
  ∃ wrapped,
    spec Examples.repr Examples.hint_str true true true Examples.double
      = Return wrapped ∧
    call wrapped [VInt 21] [] Examples.w0 = (Return (VInt 42), Examples.w0).
Proof.
  eexists. split; [reflexivity|].
  refine (valid_call_returns_native_result Examples.repr Examples.hint_str
    true true true Examples.double _ [VInt 21] [] Examples.w0 (VInt 42)
    Examples.w0 _ _ _ _).
  - reflexivity.
  - intros _. exists [("x", VInt 21)]. split; reflexivity.
  - reflexivity.
  - intros _ t Ht. vm_compute in Ht. injection Ht as <-. reflexivity.
Defined.

(** [risky(1)] raises [ValueError("boom")] through the wrapper. *)
Lemma body_exception_propagates_witness :
  ∃ wrapped,
    spec Examples.repr Examples.hint_str true true true Examples.risky
      = Return wrapped ∧
    call wrapped [VInt 1] [] Examples.w0
      = (Raise (new_exn ValueError "boom"), Examples.w0).
Proof.
  eexists. split; [reflexivity|].
  refine (body_exception_propagates Examples.repr Examples.hint_str
    true true true Examples.risky _ [VInt 1] [] Examples.w0
    (new_exn ValueError "boom") Examples.w0 _ _ _).
  - reflexivity.
  - intros _. exists [("x", VInt 1)]. split; reflexivity.
  - reflexivity.
Defined.

(** [bad(1)] returns a string where [int] is declared. *)
Lemma invalid_result_is_output_violation_witness :
  ∃ wrapped,
    spec Examples.repr Examples.hint_str true true true Examples.bad
      = Return wrapped ∧
    call wrapped [VInt 1] [] Examples.w0 =
      (Raise (new_exn OutputValidationError
         "Output validation failed for 'bad': expected <class 'int'>, got str ('not_an_int')"),
       Examples.w0).
Proof.
  eexists. split; [reflexivity|].
  refine (invalid_result_is_output_violation Examples.repr Examples.hint_str
    true true Examples.bad _ [VInt 1] [] Examples.w0 (VStr "not_an_int")
    Examples.w0 (Primitive KInt) _ _ _ _ _).
  - reflexivity.
  - intros _. exists [("x", VInt 1)]. split; reflexivity.
  - reflexivity.
  - reflexivity.
  - reflexivity.
Defined.

(** [double] under [spec(validate_inputs=False, validate_output=False)]. *)
Lemma unvalidated_wrapper_is_transparent_witness :
  ∃ wrapped,
    spec Examples.repr Examples.hint_str false false true Examples.double
      = Return wrapped ∧
    call wrapped [VBool true] [] Examples.w0
      = call Examples.double [VBool true] [] Examples.w0.
Proof.
  eexists. split; [reflexivity|].
  refine (unvalidated_wrapper_is_transparent Examples.repr Examples.hint_str
    true Examples.double _ _ [VBool true] [] Examples.w0).
  reflexivity.
Defined.



(** [double], once decorated, has a hint for [x] and for the result. *)
Lemma decorated_contract_is_complete_witness :
  is_Some (get_type_hints Examples.double !! "x") ∧
  is_Some (get_type_hints Examples.double !! "return").
Proof.
  destruct (decorated_contract_is_complete Examples.repr Examples.hint_str
    true true true Examples.double _ eq_refl) as (_ & Hparams & Hreturn).
  split; [|exact Hreturn].
  apply (Hparams (mk_parameter "x" POSITIONAL_OR_KEYWORD None)).
  - simpl. left.
  - compute_done.
  - done.
  - done.
Defined.

(** What [str.strip] leaves empty: blanks, tabs and newlines, the
    separators U+001C to U+001F, and the spaces outside ASCII, such as the
    no-break space U+00A0, the line separator U+2028 and the ideographic
    space U+3000.  The zero-width space U+200B is not white space. *)
Example blank_docstrings :
  is_blank "" = true ∧
  is_blank (String " "%char (String "009"%char (String "010"%char ""))) = true ∧
  is_blank (String "028"%char (String "031"%char "")) = true ∧
  is_blank (String "194"%char (String "160"%char "")) = true ∧
  is_blank (String "226"%char (String "128"%char (String "168"%char "")))
    = true ∧
  is_blank (String "227"%char (String "128"%char (String "128"%char " ")))
    = true ∧
  is_blank (String "226"%char (String "128"%char (String "139"%char "")))
    = false ∧
  is_blank " x " = false.
Proof. repeat split; reflexivity. Qed.

(** A docstring of one file separator counts as missing, and is reported
    before the missing type hints are. *)
Example separator_docstring_refused :
  spec Examples.repr Examples.hint_str true true true Examples.separator_doc =
    Raise (new_exn MissingDocstringError
      "Function 'func' is missing a docstring. All @spec-decorated functions must have a docstring describing their behavior.").
Proof. reflexivity. Qed.

End ContractCalls.

(** ** The Error Dispatch Engine: configuration, strategies, composition *)

Module DispatchStrategies.
Import Py Validation Decorators ErrorDispatch.

(** What [_validate_handlers] asks of a key. *)
Definition is_exception_type (k : handler_key) : bool :=
  match k with
  | KType t => issubclass_BaseException t
  | KOther _ => false
  end.

Definition all_exception_types (handlers : HandlerMap) : Prop :=
  Forall (λ entry, is_exception_type entry.1 = true) handlers.

Lemma validate_handlers_accepts key_repr key_type_name handlers :
  all_exception_types handlers →
  _validate_handlers key_repr key_type_name handlers = Return ().
Proof.
  induction 1 as [|[k s] handlers Hk _ IH]; [done|].
  cbn [_validate_handlers]. simpl in Hk. fold (is_exception_type k).
  by rewrite Hk.
Qed.

Lemma validate_handlers_rejects key_repr key_type_name
    (pre post : HandlerMap) k s :
  all_exception_types pre →
  is_exception_type k = false →
  _validate_handlers key_repr key_type_name (pre ++ (k, s) :: post) =
    Raise (new_exn HandlingStrategyError
      ("Handler key must be an exception type, got " +:+
       key_type_name k +:+ ": " +:+ key_repr k)).
Proof.
  intros Hpre Hk. induction Hpre as [|[k' s'] pre Hk' _ IH].
  - cbn [app _validate_handlers]. fold (is_exception_type k). by rewrite Hk.
  - cbn [app _validate_handlers]. simpl in Hk'.
    fold (is_exception_type k'). by rewrite Hk'.
Qed.

(** X8. [handle_errors] accepts a handlers dict exactly when every key is a
    class deriving from [BaseException], and otherwise raises
    [HandlingStrategyError] for the first key that is not.  Strategies are
    not looked at: any value, a string other than "ignore" and "log"
    included, is accepted as a strategy. *)
Theorem handlers_checked_by_key_only key_repr key_type_name
    (handlers : HandlerMap) :
  (all_exception_types handlers →
   handle_errors key_repr key_type_name handlers
     = Return (decorator handlers handlers.*1))
  ∧ (∀ pre k s post,
       handlers = pre ++ (k, s) :: post →
       all_exception_types pre →
       is_exception_type k = false →
       handle_errors key_repr key_type_name handlers =
         Raise (new_exn HandlingStrategyError
           ("Handler key must be an exception type, got " +:+
            key_type_name k +:+ ": " +:+ key_repr k))).
Proof.
  split.
  - intros Hall. unfold handle_errors.
    by rewrite validate_handlers_accepts.
  - intros pre k s post -> Hpre Hk. unfold handle_errors.
    by rewrite validate_handlers_rejects.
Qed.

(** X9. A call that returns is passed through untouched: same value, same
    world, nothing logged, whatever the handlers and the callable are. *)
Theorem returning_call_passes_through key_repr key_type_name
    (handlers : HandlerMap) decorate (fn : pycallable) args kwargs w v w1 :
  handle_errors key_repr key_type_name handlers = Return decorate →
  callable_call fn args kwargs w = (Return v, w1) →
  call (decorate fn) args kwargs w = (Return v, w1).
Proof.
  intros ->%handle_errors_decorator Hcall. simpl. by apply wrapper_return.
Qed.

(** X10. The "ignore" strategy suppresses the exception: the call returns
    [None], and the world is the one the callable left when it raised;
    nothing is logged. *)
Theorem ignore_strategy_returns_none key_repr key_type_name
    (handlers pre post : HandlerMap) exc_type decorate (fn : pycallable)
    args kwargs w e w1 :
  handle_errors key_repr key_type_name handlers = Return decorate →
  callable_call fn args kwargs w = (Raise e, w1) →
  handlers = pre ++ (exc_type, SValue (VStr "ignore")) :: post →
  no_match e pre →
  key_isinstance e exc_type = true →
  call (decorate fn) args kwargs w = (Return VNone, w1).
Proof.
  intros ->%handle_errors_decorator Hcall -> Hpre Hk. simpl.
  by rewrite (wrapper_first_match _ _ _ _ _ _ _ _ _ _ Hcall Hpre Hk).
Qed.

(** X11. A callable strategy is called with the caught exception, in the
    world the callable left: what it returns is the result of the call, and
    an exception it raises replaces the original one. *)
Theorem callable_strategy_decides key_repr key_type_name
    (handlers pre post : HandlerMap) exc_type strategy decorate
    (fn : pycallable) args kwargs w e w1 :
  handle_errors key_repr key_type_name handlers = Return decorate →
  callable_call fn args kwargs w = (Raise e, w1) →
  handlers = pre ++ (exc_type, SCallable strategy) :: post →
  no_match e pre →
  key_isinstance e exc_type = true →
  call (decorate fn) args kwargs w = strategy e w1.
Proof.
  intros ->%handle_errors_decorator Hcall -> Hpre Hk. simpl.
  rewrite (wrapper_first_match _ _ _ _ _ _ _ _ _ _ Hcall Hpre Hk).
  apply resolve_callable.
Qed.

(** X12. Any other value is returned as it is, strings other than "ignore"
    and "log" included. *)
Theorem literal_strategy_is_returned key_repr key_type_name
    (handlers pre post : HandlerMap) exc_type v decorate (fn : pycallable)
    args kwargs w e w1 :
  handle_errors key_repr key_type_name handlers = Return decorate →
  callable_call fn args kwargs w = (Raise e, w1) →
  handlers = pre ++ (exc_type, SValue v) :: post →
  no_match e pre →
  key_isinstance e exc_type = true →
  v ≠ VStr "ignore" → v ≠ VStr "log" →
  call (decorate fn) args kwargs w = (Return v, w1).
Proof.
  intros ->%handle_errors_decorator Hcall -> Hpre Hk Hignore Hlog. simpl.
  rewrite (wrapper_first_match _ _ _ _ _ _ _ _ _ _ Hcall Hpre Hk).
  apply resolve_literal.
  - destruct v; try done. simpl. apply bool_decide_eq_false. congruence.
  - destruct v; try done. simpl. apply bool_decide_eq_false. congruence.
Qed.

Section rendering.
Context (py_repr : pyval → string) (hint_str : TypeDescriptor → string).

(** X13. [handle_errors] around [spec]: an input contract violation is an
    exception like any other.  When the first matching entry takes
    [InputValidationError], its strategy decides the call, in the world of
    the caller: the underlying callable has not run. *)
Theorem input_violation_is_dispatched key_repr key_type_name
    (handlers pre post : HandlerMap) exc_type strategy decorate vo rd fn
    wrapped args kwargs bound w :
  spec py_repr hint_str true vo rd fn = Return wrapped →
  handle_errors key_repr key_type_name handlers = Return decorate →
  signature_bind (signature fn) args kwargs = inr bound →
  TypeContract.offending (get_type_hints fn)
    (apply_defaults (signature fn) bound) ≠ [] →
  let e := TypeContract.input_error fn
             (TypeContract.error_line py_repr hint_str <$>
              TypeContract.offending (get_type_hints fn)
                (apply_defaults (signature fn) bound)) in
  handlers = pre ++ (exc_type, strategy) :: post →
  no_match e pre →
  key_isinstance e exc_type = true →
  call (decorate wrapped) args kwargs w =
    (let! result := _apply_strategy strategy e wrapped in resolve e result) w.
Proof.
  intros Hspec ->%handle_errors_decorator Hbind Hbad e -> Hpre Hk. simpl.
  apply wrapper_first_match; [|done..].
  change (callable_call wrapped) with (call wrapped).
  rewrite (TypeContract.spec_wrapped _ _ _ _ _ _ _ Hspec).
  by apply TypeContract.spec_wrapper_input_failure,
    TypeContract.validate_inputs_offending.
Qed.

(** X14. [spec] around [handle_errors]: the value a handler puts in place of
    an exception is validated like any result.  A fallback value that does
    not validate against the declared return type turns into
    [OutputValidationError]. *)
Theorem fallback_value_is_output_validated key_repr key_type_name
    (handlers pre post : HandlerMap) exc_type v decorate vi rd (fn : pyfunc)
    wrapped args kwargs w e w1 return_type :
  handle_errors key_repr key_type_name handlers = Return decorate →
  spec py_repr hint_str vi true rd (decorate fn) = Return wrapped →
  (vi = true → ContractCalls.inputs_accepted fn args kwargs) →
  call fn args kwargs w = (Raise e, w1) →
  handlers = pre ++ (exc_type, SValue v) :: post →
  no_match e pre →
  key_isinstance e exc_type = true →
  v ≠ VStr "ignore" → v ≠ VStr "log" →
  get_type_hints fn !! "return" = Some return_type →
  (validate_python return_type v = false →
   call wrapped args kwargs w =
     (Raise (ContractCalls.output_error py_repr hint_str fn return_type v), w1))
  ∧ (validate_python return_type v = true →
     call wrapped args kwargs w = (Return v, w1)).
Proof.
  intros ->%handle_errors_decorator Hspec Hin Hcall -> Hpre Hk Hignore Hlog Ht.
  rewrite (TypeContract.spec_wrapped _ _ _ _ _ _ _ Hspec).
  rewrite ContractCalls.spec_wrapper_after_inputs by exact Hin.
  simpl. rewrite (wrapper_first_match _ _ _ _ fn _ _ _ _ _ Hcall Hpre Hk).
  rewrite resolve_literal.
  2:{ destruct v; try done. simpl. apply bool_decide_eq_false. congruence. }
  2:{ destruct v; try done. simpl. apply bool_decide_eq_false. congruence. }
  unfold validate_output. simpl. rewrite Ht.
  split; intros ->; done.
Qed.

End rendering.

(** [double(4)] under [{ValueError: "ignore"}] returns [8]. *)
Lemma returning_call_passes_through_witness :
  call (decorator Examples.ignore_handlers Examples.ignore_handlers.*1
          Examples.double) [VInt 4] [] Examples.w0
    = (Return (VInt 8), Examples.w0).
Proof.
  refine (returning_call_passes_through Examples.key_repr
    Examples.key_type_name Examples.ignore_handlers _ Examples.double
    [VInt 4] [] Examples.w0 (VInt 8) Examples.w0 _ _).
  - reflexivity.
  - reflexivity.
Defined.

(** test_suppresses_exception. *)
Lemma ignore_strategy_returns_none_witness :
  call (decorator Examples.ignore_handlers Examples.ignore_handlers.*1
          Examples.fail) [] [] Examples.w0
    = (Return VNone, Examples.w0).
Proof.
  refine (ignore_strategy_returns_none Examples.key_repr
    Examples.key_type_name Examples.ignore_handlers [] [] (KType ValueError)
    _ Examples.fail [] [] Examples.w0 (new_exn ValueError "test")
    Examples.w0 _ _ _ _ _).
  - reflexivity.
  - reflexivity.
  - reflexivity.
  - constructor.
  - reflexivity.
Defined.

(** test_lambda_handler. *)
Lemma callable_strategy_decides_witness :
  call (decorator Examples.lambda_handlers Examples.lambda_handlers.*1
          Examples.fail) [] [] Examples.w0
    = (Return (VStr "handled: test"), Examples.w0).
Proof.
  refine (callable_strategy_decides Examples.key_repr
    Examples.key_type_name Examples.lambda_handlers [] [] (KType ValueError)
    (λ e, pure (VStr ("handled: " +:+ exc_str e)))
    _ Examples.fail [] [] Examples.w0 (new_exn ValueError "test")
    Examples.w0 _ _ _ _ _).
  - reflexivity.
  - reflexivity.
  - reflexivity.
  - constructor.
  - reflexivity.
Defined.

(** test_subclass_matched_by_parent: the string "caught" is a value. *)
Lemma literal_strategy_is_returned_witness :
  call (decorator Examples.caught_handlers Examples.caught_handlers.*1
          Examples.fail) [] [] Examples.w0
    = (Return (VStr "caught"), Examples.w0).
Proof.
  refine (literal_strategy_is_returned Examples.key_repr
    Examples.key_type_name Examples.caught_handlers [] [] (KType Exception)
    (VStr "caught") _ Examples.fail [] [] Examples.w0
    (new_exn ValueError "test") Examples.w0 _ _ _ _ _ _ _).
  - reflexivity.
  - reflexivity.
  - reflexivity.
  - constructor.
  - reflexivity.
  - intros [=].
  - intros [=].
Defined.

(** test_handle_errors_catches_input_validation: [double("bad")] under
    [{InputValidationError: "invalid input"}] around [spec]. *)
Lemma input_violation_is_dispatched_witness :
  ∃ wrapped,
    spec Examples.repr Examples.hint_str true true true Examples.double
      = Return wrapped ∧
    call (decorator Examples.violation_handlers
            Examples.violation_handlers.*1 wrapped)
         [VStr "bad"] [] Examples.w0
      = (Return (VStr "invalid input"), Examples.w0).
Proof.
  eexists. split; [reflexivity|].
  refine (input_violation_is_dispatched Examples.repr Examples.hint_str
    Examples.key_repr Examples.key_type_name Examples.violation_handlers
    [] [] (KType InputValidationError) (SValue (VStr "invalid input")) _
    true true Examples.double _ [VStr "bad"] [] [("x", VStr "bad")]
    Examples.w0 _ _ _ _ _ _ _).
  - reflexivity.
  - reflexivity.
  - reflexivity.
  - compute_done.
  - reflexivity.
  - constructor.
  - reflexivity.
Defined.

(** test_handle_errors_inside_spec_output_mismatch: [risky(1)] with the
    fallback "not_an_int" where [int] is declared. *)
Lemma fallback_value_is_output_validated_witness :
  ∃ wrapped,
    spec Examples.repr Examples.hint_str true true true
      (decorator Examples.fallback_handlers Examples.fallback_handlers.*1
         Examples.risky) = Return wrapped ∧
    call wrapped [VInt 1] [] Examples.w0 =
      (Raise (new_exn OutputValidationError
         "Output validation failed for 'risky': expected <class 'int'>, got str ('not_an_int')"),
       Examples.w0).
Proof.
  eexists. split; [reflexivity|].
  refine (proj1 (fallback_value_is_output_validated Examples.repr
    Examples.hint_str Examples.key_repr Examples.key_type_name
    Examples.fallback_handlers [] [] (KType ValueError) (VStr "not_an_int")
    _ true true Examples.risky _ [VInt 1] [] Examples.w0
    (new_exn ValueError "boom") Examples.w0 (Primitive KInt)
    _ _ _ _ _ _ _ _ _ _) _).
  - reflexivity.
  - reflexivity.
  - intros _. exists [("x", VInt 1)]. split; reflexivity.
  - reflexivity.
  - reflexivity.
  - constructor.
  - reflexivity.
  - intros [=].
  - intros [=].
  - reflexivity.
  - reflexivity.
Defined.

End DispatchStrategies.

(** ** The State Transition Engine: carried-out transitions and runs *)

Module TransitionRuns.
Import Py StateMachine Transitions.

(** X15. When the guard passes, the body returns and both hooks return (or
    are not there), the call returns what the body returned, unchanged; and
    when the hooks leave the engine's fields alone (they write neither
    [_state] nor the history and run no guarded operation), the instance is
    in the target state. *)
Theorem carried_out_transition_returns_result cls meta method args kwargs
    w v w1 w2 w3 :
  state w ∈ from_states meta →
  m_call method args kwargs w = (Return v, w1) →
  call_hook cls ("on_exit_" +:+ state w1) w1 = (Return (), w2) →
  call_hook cls ("on_enter_" +:+ to_state meta) (commit cls meta w2)
    = (Return (), w3) →
  transition_wrapper cls meta method args kwargs w = (Return v, w3) ∧
  (hooks_preserve_engine cls → state w3 = to_state meta).
Proof.
  intros Hguard Hbody Hexit Henter.
  rewrite (wrapper_body_returns _ _ _ _ _ _ _ _ Hguard Hbody), Hexit, Henter.
  split; [done|]. intros Hhooks.
  destruct (call_hook_preserves cls ("on_enter_" +:+ to_state meta) Hhooks
              (commit cls meta w2)) as (Hstate & _).
  rewrite Henter in Hstate. simpl in Hstate. by rewrite Hstate, commit_state.
Qed.

(** X16. A failing exit hook stops the transition before anything is
    assigned: the call raises the exception of the hook and leaves the store
    as the hook left it, the enter hook does not run; and when the body and
    the hooks leave the engine's fields alone (they write neither [_state]
    nor the history and run no guarded operation), state and history are
    those before the call. *)
Theorem exit_hook_failure_prevents_transition cls meta method args kwargs
    w v w1 e w2 :
  state w ∈ from_states meta →
  m_call method args kwargs w = (Return v, w1) →
  call_hook cls ("on_exit_" +:+ state w1) w1 = (Raise e, w2) →
  transition_wrapper cls meta method args kwargs w = (Raise e, w2) ∧
  (preserves_engine (m_call method args kwargs) →
   hooks_preserve_engine cls →
   state w2 = state w ∧ history w2 = history w).
Proof.
  intros Hguard Hbody Hexit.
  rewrite (wrapper_body_returns _ _ _ _ _ _ _ _ Hguard Hbody), Hexit.
  split; [done|]. intros Hframe Hhooks.
  pose proof (call_hook_preserves cls ("on_exit_" +:+ state w1) Hhooks)
    as Hhook.
  pose proof (preserves_engine_history _ w Hframe) as Hh1.
  pose proof (preserves_engine_history _ w1 Hhook) as Hh2.
  destruct (Hframe w) as (Hs1 & _). destruct (Hhook w1) as (Hs2 & _).
  rewrite Hbody in *. rewrite Hexit in *. simpl in *.
  split; congruence.
Qed.

(** X17. A failing enter hook does not undo the transition: the call raises
    the exception of the hook and leaves the store as the hook left it; and
    when the body and the hooks leave the engine's fields alone (they write
    neither [_state] nor the history and run no guarded operation), the
    instance is in the target state and, with history tracking on, the
    target has been appended to the history. *)
Theorem enter_hook_failure_keeps_transition cls meta method args kwargs
    w v w1 w2 e w3 :
  state w ∈ from_states meta →
  m_call method args kwargs w = (Return v, w1) →
  call_hook cls ("on_exit_" +:+ state w1) w1 = (Return (), w2) →
  call_hook cls ("on_enter_" +:+ to_state meta) (commit cls meta w2)
    = (Raise e, w3) →
  transition_wrapper cls meta method args kwargs w = (Raise e, w3) ∧
  (preserves_engine (m_call method args kwargs) →
   hooks_preserve_engine cls →
   state w3 = to_state meta ∧
   (view_track_history cls = true → history_allocated w →
    history w3 = history w ++ [to_state meta])).
Proof.
  intros Hguard Hbody Hexit Henter.
  rewrite (wrapper_body_returns _ _ _ _ _ _ _ _ Hguard Hbody), Hexit, Henter.
  split; [done|]. intros Hframe Hhooks.
  pose proof (call_hook_preserves cls ("on_exit_" +:+ state w1) Hhooks)
    as Hxh.
  pose proof (call_hook_preserves cls ("on_enter_" +:+ to_state meta) Hhooks)
    as Hnh.
  pose proof (preserves_engine_history _ w Hframe) as Hh1.
  pose proof (preserves_engine_history _ w1 Hxh) as Hh2.
  pose proof (preserves_engine_history _ (commit cls meta w2) Hnh) as Hh3.
  destruct (Hnh (commit cls meta w2)) as (Hs3 & _).
  split.
  - rewrite Henter in Hs3. simpl in Hs3. by rewrite Hs3, commit_state.
  - intros Htrack Halloc.
    pose proof (preserves_engine_allocated _ w Hframe Halloc) as Ha1.
    pose proof (preserves_engine_allocated _ w1 Hxh) as Ha2.
    rewrite Hbody in *. rewrite Hexit in *. rewrite Henter in *.
    simpl in *. specialize (Ha2 Ha1).
    destruct (commit_history cls meta w2 Htrack Ha2) as [Hc _].
    congruence.
Qed.


(** The history list when tracking is off: never touched. *)
Lemma wrapper_history_off cls meta method args kwargs w :
  view_track_history cls = false →
  preserves_engine (m_call method args kwargs) →
  hooks_preserve_engine cls →
  history (transition_wrapper cls meta method args kwargs w).2 = history w.
Proof.
  intros Htrack Hframe Hhooks.
  destruct (decide (state w ∈ from_states meta)) as [Hguard|Hguard].
  2:{ by rewrite wrapper_guard_fails. }
  pose proof (preserves_engine_history _ w Hframe) as Hh1.
  destruct (m_call method args kwargs w) as [[v|e] w1] eqn:Hbody.
  2:{ by rewrite (wrapper_body_raises _ _ _ _ _ _ _ _ Hguard Hbody). }
  rewrite (wrapper_body_returns _ _ _ _ _ _ _ _ Hguard Hbody).
  pose proof (preserves_engine_history _ w1
    (call_hook_preserves cls ("on_exit_" +:+ state w1) Hhooks)) as Hh2.
  destruct (call_hook cls ("on_exit_" +:+ state w1) w1) as [[[]|e] w2].
  2:{ simpl in *. congruence. }
  pose proof (preserves_engine_history _ (commit cls meta w2)
    (call_hook_preserves cls ("on_enter_" +:+ to_state meta) Hhooks)) as Hh3.
  assert (Hc : history (commit cls meta w2) = history w2).
  { unfold commit. by rewrite Htrack. }
  destruct (call_hook cls _ (commit cls meta w2)) as [[[]|e] w3];
    simpl in *; congruence.
Qed.

(** X18. Without history tracking a new instance has the empty history, and
    no guarded call changes it, carried out or not (body and hooks leaving
    the engine's fields alone). *)
Theorem untracked_history_stays_empty cls :
  view_track_history cls = false →
  (∀ h, history (__init__ cls h) = [])
  ∧ (∀ meta method args kwargs w,
       preserves_engine (m_call method args kwargs) →
       hooks_preserve_engine cls →
       history (transition_wrapper cls meta method args kwargs w).2
         = history w).
Proof.
  intros Htrack. split.
  - intros h. unfold history, __init__. simpl.
    by rewrite Htrack, lookup_insert_eq.
  - intros. by apply wrapper_history_off.
Qed.


(** X20. Instances do not share their history: constructing another
    instance, of any class, allocates a list of its own and leaves the
    history of an existing instance as it is. *)
Theorem new_instance_has_own_history cls w :
  history_allocated w →
  let w' := __init__ cls (heap w) in
  _state_history (self w') ≠ _state_history (self w) ∧
  heap w' !! _state_history (self w) = heap w !! _state_history (self w) ∧
  history_allocated w'.
Proof.
  intros Halloc w'. subst w'. unfold __init__, history_allocated. simpl.
  assert (Hne : fresh (dom (heap w)) ≠ _state_history (self w)).
  { intros Heq. apply (is_fresh (dom (heap w))). rewrite Heq.
    by apply elem_of_dom. }
  split; [done|]. rewrite lookup_insert_ne by done.
  rewrite lookup_insert_eq. eauto.
Qed.

(** X27. The source states of a transition are a set: a single name stands
    for the list holding it, and two lists with the same names, in any order
    and with any repetition, declare the same transition, so the guarded
    operations built from them behave alike on every call. *)
Theorem source_states_form_a_set (l1 l2 : list string) target :
  (∀ s, s ∈ l1 ↔ s ∈ l2) →
  transition_meta (Many l1) target = transition_meta (Many l2) target
  ∧ (∀ s, transition_meta (One s) target = transition_meta (Many [s]) target)
  ∧ (∀ cls method args kwargs w,
       transition_wrapper cls (transition_meta (Many l1) target) method
         args kwargs w
       = transition_wrapper cls (transition_meta (Many l2) target) method
           args kwargs w).
Proof.
  intros Hsame.
  assert (Hset : (list_to_set l1 : gset string) = list_to_set l2).
  { apply set_eq. intros s. by rewrite !elem_of_list_to_set. }
  unfold transition_meta. rewrite Hset. split; [done|]. split; [|done].
  intros s. f_equal. simpl. by rewrite (right_id_L ∅ (∪)).
Qed.

(** [from_state=["a", "b", "a"]] and [from_state=["b", "a"]]. *)
Lemma source_states_form_a_set_witness :
  transition_meta (Many ["a"; "b"; "a"]) "c"
    = transition_meta (Many ["b"; "a"]) "c".
Proof.
  refine (proj1 (source_states_form_a_set ["a"; "b"; "a"] ["b"; "a"] "c" _)).
  intros s. rewrite !elem_of_cons, !elem_of_nil. tauto.
Defined.

(** [pay] on a new [Order] returns what the body returned and leaves the
    order in [paid]. *)
Lemma carried_out_transition_returns_result_witness :
  (transition_wrapper Machines.Order Machines.pay_meta Machines.pay [] []
     (__init__ Machines.Order ∅)).1 = Return VNone ∧
  state (transition_wrapper Machines.Order Machines.pay_meta Machines.pay
           [] [] (__init__ Machines.Order ∅)).2 = "paid".
Proof.
  destruct (carried_out_transition_returns_result Machines.Order
    Machines.pay_meta Machines.pay [] [] (__init__ Machines.Order ∅) VNone
    (__init__ Machines.Order ∅) (__init__ Machines.Order ∅)
    (commit Machines.Order Machines.pay_meta (__init__ Machines.Order ∅)))
    as [Hcall Hstate].
  - compute_done.
  - reflexivity.
  - reflexivity.
  - reflexivity.
  - rewrite Hcall. split; [reflexivity|]. apply Hstate.
    intros name hook Hget. discriminate Hget.
Defined.

(** [step] on a new [ExitFails]: [on_exit_a] raises. *)
Lemma exit_hook_failure_prevents_transition_witness :
  transition_wrapper Machines.ExitFails Machines.step_meta Machines.step
      [] [] (__init__ Machines.ExitFails ∅)
    = (Raise (new_exn ValueError "exit"), __init__ Machines.ExitFails ∅) ∧
  state (__init__ Machines.ExitFails ∅) = "a".
Proof.
  split; [|reflexivity].
  refine (proj1 (exit_hook_failure_prevents_transition Machines.ExitFails
    Machines.step_meta Machines.step [] [] (__init__ Machines.ExitFails ∅)
    VNone (__init__ Machines.ExitFails ∅) (new_exn ValueError "exit")
    (__init__ Machines.ExitFails ∅) _ _ _)).
  - compute_done.
  - reflexivity.
  - reflexivity.
Defined.

(** [step] on a new [EnterFails]: [on_enter_b] raises after the
    assignment. *)
Lemma enter_hook_failure_keeps_transition_witness :
  (transition_wrapper Machines.EnterFails Machines.step_meta Machines.step
     [] [] (__init__ Machines.EnterFails ∅)).1
    = Raise (new_exn ValueError "enter") ∧
  state (transition_wrapper Machines.EnterFails Machines.step_meta
           Machines.step [] [] (__init__ Machines.EnterFails ∅)).2 = "b".
Proof.
  split; [|reflexivity].
  refine (f_equal fst (proj1 (enter_hook_failure_keeps_transition
    Machines.EnterFails Machines.step_meta Machines.step [] []
    (__init__ Machines.EnterFails ∅) VNone (__init__ Machines.EnterFails ∅)
    (__init__ Machines.EnterFails ∅) (new_exn ValueError "enter")
    (commit Machines.EnterFails Machines.step_meta
       (__init__ Machines.EnterFails ∅)) _ _ _ _))).
  - compute_done.
  - reflexivity.
  - reflexivity.
  - reflexivity.
Defined.

(** [Machine] does not track its history. *)
Lemma untracked_history_stays_empty_witness :
  history (__init__ Machines.Machine ∅) = [] ∧
  history (transition_wrapper Machines.Machine Machines.step_meta
             Machines.step [] [] (__init__ Machines.Machine ∅)).2
    = history (__init__ Machines.Machine ∅).
Proof.
  destruct (untracked_history_stays_empty Machines.Machine eq_refl)
    as [Hinit Hcall].
  split; [apply Hinit|]. apply Hcall.
  - intros w. done.
  - intros name hook Hget. discriminate Hget.
Defined.


(** A [Machine] constructed next to an existing [Order]. *)
Lemma new_instance_has_own_history_witness :
  _state_history (self (__init__ Machines.Machine
                          (heap (__init__ Machines.Order ∅))))
    ≠ _state_history (self (__init__ Machines.Order ∅)).
Proof.
  refine (proj1 (new_instance_has_own_history Machines.Machine
    (__init__ Machines.Order ∅) _)).
  vm_compute. eauto.
Defined.

End TransitionRuns.

(** ** The State Transition Engine: accepted classes *)

Module AcceptedClasses.
Import Py StateMachine Transitions ClassDefinition.

Section rendering.
Context (py_repr : pyval → string).

(** A transition stays inside the state set. *)
Definition stays_inside (meta : TransitionMeta) (sts : list string) : Prop :=
  (∀ s, s ∈ from_states meta → s ∈ sts) ∧ to_state meta ∈ sts.

Lemma check_transitions_accepts cls state_set names name meta :
  check_transitions py_repr cls state_set names = Return () →
  name ∈ names →
  cls_getattr cls name = Some (Transition meta) →
  from_states meta ∖ state_set = ∅ ∧ to_state meta ∈ state_set.
Proof.
  intros Hcheck Hin Hget.
  induction names as [|attr_name names IH]; [by apply elem_of_nil in Hin|].
  cbn [check_transitions] in Hcheck.
  apply elem_of_cons in Hin as [<-|Hin].
  - rewrite Hget in Hcheck.
    destruct (bool_decide (from_states meta ∖ state_set = ∅)) eqn:Hfrom;
      [|done].
    destruct (bool_decide (to_state meta ∈ state_set)) eqn:Hto; [|done].
    by apply bool_decide_eq_true in Hfrom, Hto.
  - apply IH; [|done].
    destruct (cls_getattr cls attr_name) as [[meta'|]|]; [|done..].
    destruct (bool_decide (from_states meta' ∖ state_set = ∅)); [|done].
    by destruct (bool_decide (to_state meta' ∈ state_set)).
Qed.

Lemma class_statement_checked body base cls sts :
  class_statement py_repr body base = Return cls →
  cls_states cls = Some sts →
  sts ≠ []
  ∧ (∃ initial, cls_initial_state cls = Some initial ∧ initial ∈ sts)
  ∧ (∀ name meta,
       cls_getattr cls name = Some (Transition meta) → stays_inside meta sts).
Proof.
  unfold class_statement. intros Hstmt Hsts.
  destruct (__init_subclass__ py_repr (Subclass body base)) as [[]|] eqn:Hinit;
    [|done].
  injection Hstmt as <-.
  rewrite (init_subclass_validates _ _ _ Hsts) in Hinit.
  unfold _validate_state_machine_class in Hinit. rewrite Hsts in Hinit.
  destruct sts as [|s0 sts]; [done|]. split; [done|].
  destruct (cls_initial_state (Subclass body base)) as [initial|]; [|done].
  destruct (bool_decide (initial ∈ _)) eqn:Hinitial; [|done].
  apply bool_decide_eq_true in Hinitial. simpl in Hinit.
  split.
  - exists initial. split; [done|].
    by apply (elem_of_list_to_set (C:=gset string)).
  - intros name meta Hget.
    destruct (check_transitions_accepts _ _ _ _ _ Hinit
                (cls_getattr_dir _ _ _ Hget) Hget) as [Hfrom Hto].
    split.
    + intros s Hs. apply (elem_of_list_to_set (C:=gset string)).
      destruct (decide (s ∈ (list_to_set (s0 :: sts) : gset string)));
        [done|].
      exfalso. apply (not_elem_of_empty (C:=gset string) s).
      rewrite <-Hfrom. by apply elem_of_difference.
    + by apply (elem_of_list_to_set (C:=gset string)).
Qed.

(** X21. A class statement that succeeds on a class with a [states]
    attribute has checked the whole declaration: the states are not empty,
    the initial state is one of them, and every transition the class has,
    inherited ones included, has all its source states and its target among
    them. *)
Theorem accepted_class_is_well_formed body base cls sts :
  class_statement py_repr body base = Return cls →
  cls_states cls = Some sts →
  sts ≠ []
  ∧ (∃ initial, cls_initial_state cls = Some initial ∧ initial ∈ sts)
  ∧ (∀ name meta,
       cls_getattr cls name = Some (Transition meta) → stays_inside meta sts).
Proof. apply class_statement_checked. Qed.



End rendering.

(** [Child] on top of [Base]: the inherited [go_b] and its own [go_c] stay
    inside [a, b, c]. *)
Lemma accepted_class_is_well_formed_witness :
  stays_inside (transition_meta (One "a") "b") ["a"; "b"; "c"] ∧
  stays_inside (transition_meta (One "b") "c") ["a"; "b"; "c"].
Proof.
  destruct (accepted_class_is_well_formed Examples.repr Machines.Child
    (Subclass Machines.Base StateMachine) _ ["a"; "b"; "c"] eq_refl eq_refl)
    as (_ & _ & Htrans).
  split.
  - by apply (Htrans "go_b").
  - by apply (Htrans "go_c").
Defined.


End AcceptedClasses.

(** ** Required tests and their enforcement *)

Module TestEnforcement.
Import Py Validation Testing.

Definition case_test_name (function_name case : string) : string :=
  "test_" +:+ function_name +:+ "_" +:+ case.

Lemma append_cases_map function_name cases names :
  append_cases function_name cases names =
    names ++ (case_test_name function_name <$> cases).
Proof.
  revert names. induction cases as [|case cases IH]; intros names.
  { by rewrite app_nil_r. }
  cbn [append_cases]. rewrite IH. by rewrite <-app_assoc.
Qed.

(** X23. The required test names are, in this order: the happy-path test
    when one is required, then one test per edge case, then one per error
    case, each case in the order it was declared. *)
Theorem expected_test_names_in_order (reqs : TestRequirements) :
  expected_test_names reqs =
    (if happy_path reqs
     then ["test_" +:+ function_name reqs +:+ "_happy_path"] else [])
    ++ (case_test_name (function_name reqs) <$> edge_cases reqs)
    ++ (case_test_name (function_name reqs) <$> error_cases reqs)
  ∧ length (expected_test_names reqs) =
      (if happy_path reqs then 1 else 0)
      + length (edge_cases reqs) + length (error_cases reqs).
Proof.
  unfold expected_test_names. rewrite !append_cases_map, <-app_assoc.
  split; [done|]. rewrite !length_app, !length_fmap.
  destruct (happy_path reqs); simpl; lia.
Qed.

(** A test name is collected when some collected item is a
    [pytest.Function] of that name. *)
Definition collected (items : list item) (name : string) : Prop :=
  ∃ item, item ∈ items ∧ is_Function item = true ∧ item_name item = name.

Lemma elem_of_collect_names items acc name :
  name ∈ collect_names items acc ↔ name ∈ acc ∨ collected items name.
Proof.
  revert acc. induction items as [|item items IH]; intros acc.
  - cbn [collect_names]. split; [auto|].
    intros [?|(item & Hin & _)]; [done|]. by apply elem_of_nil in Hin.
  - cbn [collect_names]. rewrite IH. unfold collected.
    destruct (is_Function item) eqn:Hfun.
    + rewrite elem_of_union, elem_of_singleton. split.
      * intros [[?| ->]|(it & Hin & Hf & Hn)]; [auto|..].
        -- right. exists item. split; [left|done].
        -- right. exists it. split; [by right|done].
      * intros [?|(it & Hin & Hf & Hn)]; [auto|].
        apply elem_of_cons in Hin as [->|Hin]; [auto|].
        right. exists it. done.
    + split.
      * intros [?|(it & Hin & Hf & Hn)]; [auto|].
        right. exists it. split; [by right|done].
      * intros [?|(it & Hin & Hf & Hn)]; [auto|].
        apply elem_of_cons in Hin as [->|Hin]; [congruence|].
        right. exists it. done.
Qed.

(** The required names of [reqs] that are not collected. *)
Definition missing_tests (collected_names : gset string)
    (reqs : TestRequirements) : list string :=
  List.filter (λ name, negb (bool_decide (name ∈ collected_names)))
    (expected_test_names reqs).

Lemma missing_tests_nonempty collected_names reqs :
  missing_tests collected_names reqs ≠ [] ↔
  ∃ name, name ∈ expected_test_names reqs ∧ name ∉ collected_names.
Proof.
  unfold missing_tests. split.
  - intros Hne.
    destruct (List.filter _ _) as [|name names] eqn:Hfilter; [done|].
    assert (Hin : In name (List.filter
      (λ name, negb (bool_decide (name ∈ collected_names)))
      (expected_test_names reqs))) by (rewrite Hfilter; by left).
    apply filter_In in Hin as [Hin Hout]. exists name.
    split; [by apply list_elem_of_In|].
    apply negb_true_iff in Hout. by apply bool_decide_eq_false in Hout.
  - intros (name & Hin & Hout) Hnil.
    assert (Hf : In name (List.filter
      (λ name, negb (bool_decide (name ∈ collected_names)))
      (expected_test_names reqs))).
    { apply filter_In. split; [by apply list_elem_of_In|].
      apply negb_true_iff. by apply bool_decide_eq_false. }
    rewrite Hnil in Hf. destruct Hf.
Qed.

Lemma find_missing_empty registry collected_names d :
  find_missing registry collected_names d = ∅ ↔
  d = ∅ ∧ Forall (λ reqs, missing_tests collected_names reqs = []) registry.
Proof.
  revert d. induction registry as [|reqs registry IH]; intros d.
  - cbn [find_missing]. split; [by intros ->|by intros [-> _]].
  - cbn [find_missing]. fold (missing_tests collected_names reqs).
    rewrite IH, Forall_cons.
    destruct (missing_tests collected_names reqs) as [|name names].
    + split; [intros [? ?]; auto|intros [? [_ ?]]; auto].
    + split.
      * intros [Hins _]. by apply insert_non_empty in Hins.
      * intros [_ [? _]]. done.
Qed.

Lemma modifyitems_strict action registry items :
  (pytest_collection_modifyitems action "strict" registry items).1 =
    if bool_decide (find_missing registry (collect_names items ∅) ∅ = ∅)
    then Return ()
    else Raise (new_exn MissingTestsError
           (String.concat newline
              (report_lines
                 (sorted_items
                    (find_missing registry (collect_names items ∅) ∅))
                 ["Missing required tests:"]))).
Proof.
  unfold pytest_collection_modifyitems.
  rewrite (bool_decide_eq_false_2 ("strict" = "off")) by done.
  destruct registry as [|reqs registry].
  - cbn [find_missing]. by rewrite bool_decide_eq_true_2.
  - by destruct (bool_decide (find_missing _ _ _ = ∅)).
Qed.

Lemma some_test_missing registry items :
  find_missing registry (collect_names items ∅) ∅ ≠ ∅ ↔
  ∃ reqs name,
    reqs ∈ registry ∧ name ∈ expected_test_names reqs ∧ ¬ collected items name.
Proof.
  rewrite find_missing_empty. split.
  - intros Hne.
    destruct (decide (Forall (λ reqs,
      missing_tests (collect_names items ∅) reqs = []) registry))
      as [Hall|Hnot]; [by destruct Hne|].
    apply not_Forall_Exists in Hnot; [|apply _].
    apply Exists_exists in Hnot as (reqs & Hin & Hmiss).
    apply missing_tests_nonempty in Hmiss as (name & Hname & Hout).
    exists reqs, name. split; [done|]. split; [done|].
    intros Hc. apply Hout, elem_of_collect_names. by right.
  - intros (reqs & name & Hin & Hname & Hout) [_ Hall].
    rewrite Forall_forall in Hall. specialize (Hall _ Hin).
    revert Hall. apply missing_tests_nonempty. exists name.
    split; [done|]. intros [Hempty|Hc]%elem_of_collect_names; [|done].
    by apply not_elem_of_empty in Hempty.
Qed.

(** X24. In strict mode the hook raises [MissingTestsError] exactly when
    some registered function requires a test name for which no
    [pytest.Function] of that name was collected; otherwise it returns.
    No warning is issued in strict mode, so the warnings filter plays no
    part. *)
Theorem strict_mode_fails_iff_test_missing action registry items :
  ((∃ report,
      (pytest_collection_modifyitems action "strict" registry items).1
        = Raise (new_exn MissingTestsError report))
   ↔ ∃ reqs name,
       reqs ∈ registry ∧ name ∈ expected_test_names reqs
       ∧ ¬ collected items name)
  ∧ ((pytest_collection_modifyitems action "strict" registry items).1
       = Return ()
     ↔ ∀ reqs name,
         reqs ∈ registry → name ∈ expected_test_names reqs →
         collected items name).
Proof.
  rewrite modifyitems_strict.
  destruct (bool_decide (find_missing registry (collect_names items ∅) ∅ = ∅))
    eqn:Hempty.
  - apply bool_decide_eq_true in Hempty. split.
    + split; [by intros [? ?]|].
      intros Hmissing%some_test_missing. done.
    + split; [|done]. intros _ reqs name Hin Hname.
      destruct (decide (name ∈ collect_names items ∅)) as [Hc|Hc].
      * apply elem_of_collect_names in Hc as [Hc|Hc]; [|done].
        by apply not_elem_of_empty in Hc.
      * exfalso. apply (proj2 (some_test_missing registry items)); [|done].
        exists reqs, name. split; [done|]. split; [done|].
        intros Hcol. apply Hc, elem_of_collect_names. by right.
  - apply bool_decide_eq_false in Hempty. split.
    + split; [|eauto]. intros _. by apply some_test_missing.
    + split; [done|]. intros Hall.
      apply some_test_missing in Hempty as (reqs & name & Hin & Hname & Hout).
      destruct Hout. by apply Hall with reqs.
Qed.

(** X25. Only the exact value "strict" makes the hook raise
    [MissingTestsError].  With "off" it returns without a warning, whatever
    is missing.  With any other value ("warn", or a misspelt "strict") it
    calls [warnings.warn] at most once: it returns, with at most one warning
    shown, unless the warnings filter turns warnings into errors, and then
    what it raises is the [UserWarning], not [MissingTestsError]. *)
Theorem only_strict_mode_raises_MissingTestsError action enforcement registry
    items :
  enforcement ≠ "strict" →
  (∀ e,
     (pytest_collection_modifyitems action enforcement registry items).1
       = Raise e →
     action = ActionError ∧ enforcement ≠ "off" ∧ exc_type e = UserWarning
     ∧ isinstance e MissingTestsError = false)
  ∧ (action ≠ ActionError →
     (pytest_collection_modifyitems action enforcement registry items).1
       = Return ())
  ∧ length (pytest_collection_modifyitems action enforcement registry items).2
      ≤ 1
  ∧ (enforcement = "off" →
     pytest_collection_modifyitems action enforcement registry items
       = (Return (), [])).
Proof.
  intros Hstrict. unfold pytest_collection_modifyitems.
  destruct (bool_decide (enforcement = "off")) eqn:Hoff.
  { simpl. split; [done|]. split; [done|]. split; [lia|done]. }
  apply bool_decide_eq_false in Hoff.
  destruct registry as [|reqs registry].
  { simpl. split; [done|]. split; [done|]. split; [lia|done]. }
  destruct (bool_decide (find_missing _ _ _ = ∅)).
  { simpl. split; [done|]. split; [done|]. split; [lia|done]. }
  rewrite (bool_decide_eq_false_2 _ Hstrict).
  destruct action; simpl.
  - split; [|split; [done|split; [lia|done]]].
    intros e [= <-]. done.
  - split; [done|]. split; [done|]. split; [lia|done].
  - split; [done|]. split; [done|]. split; [lia|done].
Qed.

(** X26. Decoration registers what the hook enforces: after
    [requires_tests] with a happy-path test required has decorated [func],
    the hook in strict mode raises [MissingTestsError] unless a
    [pytest.Function] named [test_<name>_happy_path] was collected,
    whatever else is registered or collected. *)
Theorem registered_happy_path_is_enforced action edge_cases error_cases func
    registry items :
  ¬ collected items ("test_" +:+ __name__ func +:+ "_happy_path") →
  ∃ report,
    (pytest_collection_modifyitems action "strict"
       (requires_tests true edge_cases error_cases func registry).2
       items).1
      = Raise (new_exn MissingTestsError report).
Proof.
  intros Hmissing. rewrite modifyitems_strict.
  rewrite bool_decide_eq_false_2; [eauto|].
  apply some_test_missing.
  eexists _, ("test_" +:+ __name__ func +:+ "_happy_path").
  split; [|split; [|done]].
  - simpl. apply elem_of_app. right. left.
  - unfold expected_test_names. rewrite !append_cases_map. simpl. left.
Qed.

(** A session in warn mode with tests missing, the warning being shown: no
    failure, one warning. *)
Lemma only_strict_mode_raises_MissingTestsError_witness :
  (pytest_collection_modifyitems ActionShow "warn"
     Examples.create_user_registry Examples.collected_items).1 = Return () ∧
  length (pytest_collection_modifyitems ActionShow "warn"
            Examples.create_user_registry Examples.collected_items).2 ≤ 1.
Proof.
  destruct (only_strict_mode_raises_MissingTestsError ActionShow "warn"
    Examples.create_user_registry Examples.collected_items)
    as (_ & Hret & Hwarn & _).
  - intros [=].
  - split; [apply Hret; intros [=]|exact Hwarn].
Defined.

(** [create_user] is decorated and no test at all is collected. *)
Lemma registered_happy_path_is_enforced_witness :
  ∃ report,
    (pytest_collection_modifyitems ActionShow "strict"
       Examples.create_user_registry []).1
      = Raise (new_exn MissingTestsError report).
Proof.
  refine (registered_happy_path_is_enforced ActionShow
    (Some ["empty_input"; "max_boundaries"])
    (Some ["invalid_email"; "negative_age"]) Examples.create_user [] [] _).
  intros (item & Hin & _). by apply elem_of_nil in Hin.
Defined.

(** The report for [create_user] when only the happy-path test was
    collected as a function. *)
Example create_user_report :
  pytest_collection_modifyitems ActionShow "strict"
    Examples.create_user_registry Examples.collected_items =
  (Raise (new_exn MissingTestsError
     (String.concat newline
        ["Missing required tests:";
         "  create_user:";
         "    - test_create_user_empty_input";
         "    - test_create_user_max_boundaries";
         "    - test_create_user_invalid_email";
         "    - test_create_user_negative_age"])), []).
Proof. vm_compute. reflexivity. Qed.

(** The same session in warn mode under [-W error]: the warning is raised
    as a [UserWarning] carrying the report. *)
Example create_user_warning_as_error :
  pytest_collection_modifyitems ActionError "warn"
    Examples.create_user_registry Examples.collected_items =
  (Raise (new_exn UserWarning
     (String.concat newline
        ["Missing required tests:";
         "  create_user:";
         "    - test_create_user_empty_input";
         "    - test_create_user_max_boundaries";
         "    - test_create_user_invalid_email";
         "    - test_create_user_negative_age"])), []).
Proof. vm_compute. reflexivity. Qed.

End TestEnforcement.
